(** * LTV-CHURN: feature engineering, artifact loading and dual-model inference

    A shallow embedding of [Ml2/src/feature_engineering.py],
    [Ml2/src/model_loader.py] and [Ml2/src/prediction_engine.py], and of
    the start-up and the views of [Ml2/app.py].

    Conventions of the embedding.
    - A Python [float] is modelled by the rational number it denotes
      ([Q]); comparisons against the literal thresholds of the source are
      then the exact comparisons Python performs.  NaN and the infinities
      are outside the model.
    - A Python [dict] with string keys is a [gmap string _].
    - Code that may raise returns [Exc A = string + A]; the string is
      [str(e)], which is all the callers ever look at.
    - [datetime.now()] reads a clock that is threaded as explicit state.
    - Calls to [logger] and [print] have no influence on any result and
      are left out. *)

From Stdlib Require Import ZArith QArith Qround Qminmax Qabs String List Sorted Lia Lqa.
From stdpp Require Import base option list gmap strings.

Local Open Scope string_scope.

(* ===================================================================== *)
(** ** Python runtime fragments shared by the three modules *)
(* ===================================================================== *)

Module Py.

(** Exceptions are identified with their message. *)
Definition Exc (A : Type) : Type := (string + A)%type.

Definition ret {A} (a : A) : Exc A := inr a.
Definition raise {A} (msg : string) : Exc A := inl msg.

Definition bind {A B} (m : Exc A) (k : A -> Exc B) : Exc B :=
  match m with
  | inl e => inl e
  | inr a => k a
  end.

Definition raises {A} (m : Exc A) : Prop := exists e, m = inl e.

(** The JSON-like values a request body can hold. *)
Inductive pyval : Type :=
| PyNone
| PyBool (b : bool)
| PyNum (q : Q)
| PyStr (s : string).

(** Strict and non-strict comparison of floats, as booleans. *)
Definition Qgeb (x y : Q) : bool := Qle_bool y x.
Definition Qgtb (x y : Q) : bool := negb (Qle_bool x y).
Definition Qltb (x y : Q) : bool := negb (Qle_bool y x).

(** Python's two-argument [max(a, b)]: [b] when [a < b], otherwise [a]. *)
Definition py_max (a b : Q) : Q := if Qltb a b then b else a.
Definition py_min (a b : Q) : Q := if Qltb b a then b else a.

(** [np.clip(x, lo, hi)] and [Series.clip(lo, hi)]. *)
Definition clip (x lo hi : Q) : Q := py_min (py_max x lo) hi.

(** [round(x, n)]: the multiple of [10^-n] nearest to [x], ties to the even
    multiple. *)
Definition round_half_even (x : Q) : Z :=
  let f := Qfloor x in
  let d := (x - inject_Z f)%Q in
  match (d ?= 1 # 2)%Q with
  | Lt => f
  | Gt => (f + 1)%Z
  | Eq => if Z.even f then f else (f + 1)%Z
  end.

Definition pow10 (n : nat) : Z := (10 ^ Z.of_nat n)%Z.

Definition py_round (x : Q) (n : nat) : Q :=
  Qred (inject_Z (round_half_even (x * inject_Z (pow10 n))) / inject_Z (pow10 n))%Q.

(** [int(x)] on a float truncates towards zero. *)
Definition py_int (x : Q) : Z :=
  if Qle_bool 0 x then Qfloor x else Qceiling x.

End Py.

Export Py.

Declare Scope exc_scope.
Delimit Scope exc_scope with exc.
Notation "'let!' x ':=' m 'in' k" := (Py.bind m (fun x => k))
  (at level 10, x name, m at level 100, k at level 200) : exc_scope.

(* ===================================================================== *)
(** ** feature_engineering.py *)
(* ===================================================================== *)

Module FeatureEngineer.

Local Open Scope Q_scope.

(** One row of the input frame: the numeric columns of the record schema. *)
Record RawRecord : Type := mkRaw {
  running_sessions_count : Q;
  runs_last_30_days : Q;
  runs_last_90_days : Q;
  distance_last_30_days_km : Q;
  distance_last_90_days_km : Q;
  days_since_last_run : Q;
  avg_distance_per_run : Q;
  days_on_platform : Q;
  days_since_last_login : Q;
  avg_heart_rate_last_30_days : Q;
  peak_heart_rate_max : Q;
  avg_elevation_gain : Q;
  avg_pace_min_per_km : Q;
  achievement_count : Q;
  has_biometrics : Q;
  membership_type_id : Q;
  race_participation_count : Q
}.

(** One row of the returned frame: the input columns and the eight added
    ones. *)
Record DerivedRow : Type := mkDerived {
  raw : RawRecord;
  engagement_score : Q;
  days_inactive_ratio : Q;
  consistency_score : Q;
  monthly_activity_rate : Q;
  distance_trend : Q;
  is_premium : Z;
  activity_level : Z;
  pace_category : Z
}.

(** [Series.replace(0, 1)] on one cell. *)
Definition replace_0_1 (x : Q) : Q := if Qeq_bool x 0 then 1 else x.

(** [_calculate_engagement_score], one row. *)
Definition _calculate_engagement_score (r : RawRecord) : Q :=
  let runs_norm := clip (runs_last_90_days r / 30) 0 1 in
  let distance_norm := clip (distance_last_90_days_km r / 500) 0 1 in
  let achievements_norm := clip (achievement_count r / 20) 0 1 in
  let biometrics_norm := has_biometrics r in
  let races_norm := clip (race_participation_count r / 10) 0 1 in
  let score :=
    (runs_norm * (35 # 100) +
     distance_norm * (25 # 100) +
     achievements_norm * (20 # 100) +
     biometrics_norm * (10 # 100) +
     races_norm * (10 # 100)) * 100 in
  py_round score 2.

(** [_calculate_consistency_score], one row. *)
Definition _calculate_consistency_score (runs_30d runs_90d : Q) : Q :=
  let avg_30d := runs_30d in
  let avg_90d := runs_90d / 3 in
  let consistency :=
    if Qgtb avg_90d 0 then 1 - Qabs (avg_30d - avg_90d) / avg_90d else 0 in
  py_round (clip consistency 0 1) 4.

Definition calc_days_inactive_ratio (r : RawRecord) : Q :=
  clip (days_since_last_run r / replace_0_1 (days_on_platform r)) 0 1.

Definition calc_monthly_activity_rate (r : RawRecord) : Q :=
  clip (running_sessions_count r / replace_0_1 (days_on_platform r / 30)) 0 50.

Definition calc_distance_trend (r : RawRecord) : Q :=
  let avg_30d := distance_last_30_days_km r in
  let avg_90d := distance_last_90_days_km r / 3 in
  clip (if Qgtb avg_90d 0 then (avg_30d - avg_90d) / avg_90d else 0) (-1) 1.

Definition calc_is_premium (r : RawRecord) : Z :=
  if Qgtb (membership_type_id r) 1 then 1%Z else 0%Z.

(** [pd.cut(x, bins, labels)] with the default right-closed intervals and
    [include_lowest=False]: the bins are [(lo, e1], (e1, e2], ...], closed
    by [(e_last, inf)] for the trailing [float('inf')] edge.  A value in no
    bin gets no category (pandas' NaN). *)
Fixpoint pd_cut (lo : Q) (edges : list Q) (labels : list Z) (x : Q) : option Z :=
  match edges, labels with
  | hi :: edges', lab :: labels' =>
      if Qltb lo x && Qle_bool x hi then Some lab
      else pd_cut hi edges' labels' x
  | [], lab :: _ => if Qltb lo x then Some lab else None
  | _, [] => None
  end.

Definition activity_level_cut (r : RawRecord) : option Z :=
  pd_cut (-1) [0; 5; 20; 50] [0; 1; 2; 3; 4]%Z (running_sessions_count r).

Definition pace_category_cut (r : RawRecord) : option Z :=
  pd_cut 0 [5; 6; 7; 8] [4; 3; 2; 1; 0]%Z (avg_pace_min_per_km r).

(** [Series.astype(int)] on a categorical column: a missing category
    anywhere in the column raises. *)
Fixpoint astype_int (col : list (option Z)) : Exc (list Z) :=
  match col with
  | [] => ret []
  | Some z :: col' => (let! zs := astype_int col' in ret (z :: zs))%exc
  | None :: _ => raise "Cannot convert float NaN to integer"
  end.

Definition derive_row (r : RawRecord) (al pc : Z) : DerivedRow :=
  {| raw := r;
     engagement_score := _calculate_engagement_score r;
     days_inactive_ratio := calc_days_inactive_ratio r;
     consistency_score :=
       _calculate_consistency_score (runs_last_30_days r) (runs_last_90_days r);
     monthly_activity_rate := calc_monthly_activity_rate r;
     distance_trend := calc_distance_trend r;
     is_premium := calc_is_premium r;
     activity_level := al;
     pace_category := pc |}.

Fixpoint zip_rows (df : list RawRecord) (als pcs : list Z) : list DerivedRow :=
  match df, als, pcs with
  | r :: df', al :: als', pc :: pcs' => derive_row r al pc :: zip_rows df' als' pcs'
  | _, _, _ => []
  end.

(** [calculate_all_features]: the frame is a list of rows; the columns are
    computed in the order of the source, so the [activity_level] cast is
    attempted before the [pace_category] cast. *)
Definition calculate_all_features (df : list RawRecord) : Exc (list DerivedRow) :=
  (let! als := astype_int (map activity_level_cut df) in
   let! pcs := astype_int (map pace_category_cut df) in
   ret (zip_rows df als pcs))%exc.

(** The three users of the module's self-test. *)
Definition sample_data : list RawRecord :=
  [ mkRaw 50 15 45 150 450 1 10 365 1 145 180 50 6 15 1 2 5;
    mkRaw 10 3 9 30 90 30 10 180 15 150 185 30 7 5 1 1 2;
    mkRaw 2 0 2 0 20 90 10 90 60 0 0 0 0 0 0 1 0 ].

End FeatureEngineer.


(* ===================================================================== *)
(** ** The scikit-learn objects held in the artifact files *)
(* ===================================================================== *)

Module Sklearn.

(** The one-row frame built by [_prepare_features]: the column names and
    the cells of row 0. *)
Record DataFrame : Type := mkFrame {
  columns : list string;
  cells : list pyval
}.

(** A trained estimator, seen through the attributes the engine touches.
    [predict X] is [model.predict(X)[0]]; [predict_proba X] is
    [model.predict_proba(X)[0, 1]] and is absent for an estimator without
    that method; [feature_importances_] is absent when [hasattr] is false. *)
Record Estimator : Type := mkEstimator {
  predict : list Q -> Exc Q;
  predict_proba : option (list Q -> Exc Q);
  feature_importances_ : option (list Q)
}.

(** A fitted scaler: [transform X] is row 0 of [scaler.transform(X)]. *)
Record Scaler : Type := mkScaler {
  transform : DataFrame -> Exc (list Q)
}.

(** What [joblib.load] can give back for the files of this repository. *)
Inductive artifact : Type :=
| AEstimator (m : Estimator)
| AScaler (s : Scaler)
| AFeatureNames (names : list string).

End Sklearn.

Export Sklearn.

(* ===================================================================== *)
(** ** model_loader.py *)
(* ===================================================================== *)

Module ModelLoader.

(** The files under [models_dir]: a path is present when the file exists,
    and holds what [joblib.load] does with it (an object, or an exception
    for a file that cannot be unpickled). *)
Definition FileSystem : Type := gmap string (Exc artifact).

Record t : Type := mkLoader {
  models_dir : string;
  model_version : string;
  models : gmap string artifact;
  scalers : gmap string artifact;
  feature_names : gmap string artifact
}.

(** [__init__] *)
Definition init (models_dir model_version : string) : t :=
  mkLoader models_dir model_version ∅ ∅ ∅.

Definition set_model (k : string) (a : artifact) (self : t) : t :=
  mkLoader (models_dir self) (model_version self)
           (<[k := a]> (models self)) (scalers self) (feature_names self).

Definition set_scaler (k : string) (a : artifact) (self : t) : t :=
  mkLoader (models_dir self) (model_version self)
           (models self) (<[k := a]> (scalers self)) (feature_names self).

Definition set_feature_names (k : string) (a : artifact) (self : t) : t :=
  mkLoader (models_dir self) (model_version self)
           (models self) (scalers self) (<[k := a]> (feature_names self)).

(** [models_dir / f'{model_name}_{model_version}.pkl'] *)
Definition model_path (self : t) (model_name : string) : string :=
  models_dir self ++ "/" ++ model_name ++ "_" ++ model_version self ++ ".pkl".

(** [_load_model] *)
Definition _load_model (fs : FileSystem) (self : t) (model_name : string)
  : Exc artifact :=
  match fs !! model_path self model_name with
  | None => raise ("Model not found: " ++ model_path self model_name)
  | Some content => content
  end.

(** Statements of the [try] block of [load_all_models]: each may raise and
    leaves the loader as the statements before it made it. *)
Definition Stmt : Type := t -> Exc unit * t.

Definition assign (set : string -> artifact -> t -> t) (fs : FileSystem)
           (key model_name : string) : Stmt :=
  fun self =>
    match _load_model fs self model_name with
    | inl e => (inl e, self)
    | inr a => (inr tt, set key a self)
    end.

Definition seq (s1 s2 : Stmt) : Stmt :=
  fun self =>
    match s1 self with
    | (inl e, self') => (inl e, self')
    | (inr _, self') => s2 self'
    end.

Definition load_body (fs : FileSystem) : Stmt :=
  seq (assign set_model fs "churn" "churn_model")
 (seq (assign set_scaler fs "churn" "churn_scaler")
 (seq (assign set_feature_names fs "churn" "churn_features")
 (seq (assign set_model fs "ltv" "ltv_model")
 (seq (assign set_scaler fs "ltv" "ltv_scaler")
      (assign set_feature_names fs "ltv" "ltv_features"))))).

(** [load_all_models]: [True] when the block ran to its end, [False] when
    the [except] clause caught something. *)
Definition load_all_models (fs : FileSystem) (self : t) : bool * t :=
  match load_body fs self with
  | (inr _, self') => (true, self')
  | (inl _, self') => (false, self')
  end.

Definition get_model (self : t) (model_type : string) : option artifact :=
  models self !! model_type.

Definition get_scaler (self : t) (model_type : string) : option artifact :=
  scalers self !! model_type.

Definition get_feature_names (self : t) (model_type : string) : option artifact :=
  feature_names self !! model_type.

End ModelLoader.

(* ===================================================================== *)
(** ** prediction_engine.py *)
(* ===================================================================== *)

Module PredictionEngine.

(** *** The clock behind [datetime.now().isoformat()]

    A clock is the sequence of readings that successive calls will see;
    a call takes the head reading and leaves the rest. *)
Definition Clock : Type := nat -> string.

Definition M (A : Type) : Type := Clock -> Exc A * Clock.

Definition unit_m {A} (a : A) : M A := fun clk => (inr a, clk).

Definition bind_m {A B} (m : M A) (k : A -> M B) : M B :=
  fun clk =>
    match m clk with
    | (inl e, clk') => (inl e, clk')
    | (inr a, clk') => k a clk'
    end.

Definition lift_m {A} (e : Exc A) : M A := fun clk => (e, clk).

Definition datetime_now_isoformat : M string :=
  fun clk => (inr (clk 0%nat), fun n => clk (S n)).

Declare Scope clock_scope.
Delimit Scope clock_scope with clock.
Notation "'do!' x ':=' m 'in' k" := (bind_m m (fun x => k))
  (at level 10, x name, m at level 100, k at level 200) : clock_scope.

(** *** Result values *)

(** One entry of a result's [feature_importance] list. *)
Record FeatureImportance : Type := mkImportance {
  feature_name : string;
  feature_value : Q;
  importance_score : Q;
  rank : nat
}.

Module Churn.
Record Result : Type := mkResult {
  prediction : Z;
  probability : Q;
  risk_level : string;
  confidence_score : Q;
  feature_importance : list FeatureImportance;
  model_version : string;
  predicted_at : string
}.
End Churn.

Module Ltv.
Record Result : Type := mkResult {
  ltv_value : Q;
  ltv_category : string;
  feature_importance : list FeatureImportance;
  model_version : string;
  predicted_at : string
}.
End Ltv.

(** One entry of the list returned by [predict_batch]. *)
Inductive BatchEntry : Type :=
| BatchOk (user_id : pyval) (churn : Churn.Result) (ltv : Ltv.Result)
| BatchError (user_id : pyval) (error : string).

(** *** Attribute access on whatever the loader hands out *)

Definition type_name (o : option artifact) : string :=
  match o with
  | None => "NoneType"
  | Some (AEstimator _) => "Estimator"
  | Some (AScaler _) => "StandardScaler"
  | Some (AFeatureNames _) => "list"
  end.

Definition attribute_error (o : option artifact) (attr : string) : string :=
  "'" ++ type_name o ++ "' object has no attribute '" ++ attr ++ "'".

(** [scaler.transform(X)] *)
Definition call_transform (scaler : option artifact) (X : DataFrame) : Exc (list Q) :=
  match scaler with
  | Some (AScaler s) => transform s X
  | _ => raise (attribute_error scaler "transform")
  end.

(** [model.predict_proba(X_scaled)[0, 1]] *)
Definition call_predict_proba (model : option artifact) (X_scaled : list Q) : Exc Q :=
  match model with
  | Some (AEstimator m) =>
      match predict_proba m with
      | Some f => f X_scaled
      | None => raise (attribute_error model "predict_proba")
      end
  | _ => raise (attribute_error model "predict_proba")
  end.

(** [model.predict(X_scaled)[0]] *)
Definition call_predict (model : option artifact) (X_scaled : list Q) : Exc Q :=
  match model with
  | Some (AEstimator m) => predict m X_scaled
  | _ => raise (attribute_error model "predict")
  end.

(** [model.feature_importances_] guarded by [hasattr]. *)
Definition getattr_feature_importances (model : option artifact) : option (list Q) :=
  match model with
  | Some (AEstimator m) => feature_importances_ m
  | _ => None
  end.

(** Iterating over the object stored as a feature-name list. *)
Definition iterate (names : option artifact) : Exc (list string) :=
  match names with
  | Some (AFeatureNames l) => ret l
  | _ => raise ("'" ++ type_name names ++ "' object is not iterable")
  end.

(** [features_dict.get(feature_name, 0)] *)
Definition dict_get_0 (features_dict : gmap string pyval) (feature_name : string) : pyval :=
  default (PyNum 0) (features_dict !! feature_name).

(** [user_features.get('user_id')] *)
Definition get_user_id (user_features : gmap string pyval) : pyval :=
  default PyNone (user_features !! "user_id").

(** The loop of [_prepare_features]: one [append] per expected name. *)
Definition features_list_of (features_dict : gmap string pyval)
           (feature_names : list string) : list pyval :=
  fold_left (fun features_list feature_name =>
               (features_list ++ [dict_get_0 features_dict feature_name])%list)
            feature_names [].

(** [_prepare_features] *)
Definition _prepare_features (self : ModelLoader.t)
           (features_dict : gmap string pyval) (model_type : string) : Exc DataFrame :=
  (let! feature_names := iterate (ModelLoader.get_feature_names self model_type) in
   ret (mkFrame feature_names (features_list_of features_dict feature_names)))%exc.

(** [list.sort(key=importance_score, reverse=True)]: descending and
    stable. *)
Fixpoint insert_desc (x : FeatureImportance) (l : list FeatureImportance)
  : list FeatureImportance :=
  match l with
  | [] => [x]
  | y :: l' =>
      if Qltb (importance_score x) (importance_score y)
      then y :: insert_desc x l'
      else x :: y :: l'
  end.

Definition sort_desc (l : list FeatureImportance) : list FeatureImportance :=
  foldr insert_desc [] l.

Definition risk_level_of (probability : Q) : string :=
  if Qgeb probability (7 # 10) then "HIGH"
  else if Qgeb probability (4 # 10) then "MEDIUM"
  else "LOW".

Definition ltv_category_of (ltv_value : Q) : string :=
  if Qgeb ltv_value 500 then "HIGH"
  else if Qgeb ltv_value 200 then "MEDIUM"
  else if Qgtb ltv_value 0 then "LOW"
  else "ZERO".

Section Engine.

(** [float(s)] on a [str]: the number Python parses from it, or the
    [ValueError] it raises.  The parser is the interpreter's, not this
    repository's. *)
Variable float_of_str : string -> Exc Q.

(** [float(v)] *)
Definition py_float (v : pyval) : Exc Q :=
  match v with
  | PyNum q => ret q
  | PyBool b => ret (if b then 1 else 0)%Q
  | PyStr s => float_of_str s
  | PyNone => raise "float() argument must be a string or a real number, not 'NoneType'"
  end.

(** [X.iloc[0, i]] *)
Definition iloc0 (X : DataFrame) (i : nat) : Exc pyval :=
  match cells X !! i with
  | Some v => ret v
  | None => raise "single positional indexer is out-of-bounds"
  end.

(** The [enumerate(zip(feature_names, importances))] loop, entered at
    index [i]. *)
Fixpoint importance_entries (X : DataFrame) (i : nat) (pairs : list (string * Q))
  : Exc (list FeatureImportance) :=
  match pairs with
  | [] => ret []
  | (name, importance) :: rest =>
      (let! cell := iloc0 X i in
       let! value := py_float cell in
       let! later := importance_entries X (S i) rest in
       ret (mkImportance name value (py_round importance 4) (i + 1) :: later))%exc
  end.

(** [_calculate_feature_importance] *)
Definition _calculate_feature_importance (self : ModelLoader.t)
           (model : option artifact) (X : DataFrame) (model_type : string)
           (top_n : nat) : Exc (list FeatureImportance) :=
  match getattr_feature_importances model with
  | None => ret []
  | Some importances =>
      (let! feature_names := iterate (ModelLoader.get_feature_names self model_type) in
       let! feature_importance := importance_entries X 0 (zip feature_names importances) in
       ret (take top_n (sort_desc feature_importance)))%exc
  end.

(** [predict_churn] *)
Definition predict_churn (self : ModelLoader.t) (features_dict : gmap string pyval)
  : M Churn.Result :=
  (do! X := lift_m (_prepare_features self features_dict "churn") in
   let scaler := ModelLoader.get_scaler self "churn" in
   do! X_scaled := lift_m (call_transform scaler X) in
   let model := ModelLoader.get_model self "churn" in
   do! probability := lift_m (call_predict_proba model X_scaled) in
   do! label := lift_m (call_predict model X_scaled) in
   let prediction := py_int label in
   let risk_level := risk_level_of probability in
   do! feature_importance :=
     lift_m (_calculate_feature_importance self model X "churn" 10) in
   do! now := datetime_now_isoformat in
   unit_m (Churn.mkResult
             prediction
             (py_round probability 4)
             risk_level
             (py_round (py_max probability (1 - probability)) 4)
             feature_importance
             (ModelLoader.model_version self)
             now))%clock.

(** [predict_ltv] *)
Definition predict_ltv (self : ModelLoader.t) (features_dict : gmap string pyval)
  : M Ltv.Result :=
  (do! X := lift_m (_prepare_features self features_dict "ltv") in
   let scaler := ModelLoader.get_scaler self "ltv" in
   do! X_scaled := lift_m (call_transform scaler X) in
   let model := ModelLoader.get_model self "ltv" in
   do! output := lift_m (call_predict model X_scaled) in
   let ltv_value := py_max output 0 in
   let ltv_category := ltv_category_of ltv_value in
   do! feature_importance :=
     lift_m (_calculate_feature_importance self model X "ltv" 10) in
   do! now := datetime_now_isoformat in
   unit_m (Ltv.mkResult
             (py_round ltv_value 2)
             ltv_category
             feature_importance
             (ModelLoader.model_version self)
             now))%clock.

(** The body of the [for] loop of [predict_batch]: the [try] block and its
    [except] clause. *)
Definition batch_item (self : ModelLoader.t) (user_features : gmap string pyval)
  : Clock -> BatchEntry * Clock :=
  fun clk =>
    match (do! churn_result := predict_churn self user_features in
           do! ltv_result := predict_ltv self user_features in
           unit_m (churn_result, ltv_result))%clock clk with
    | (inr (churn_result, ltv_result), clk') =>
        (BatchOk (get_user_id user_features) churn_result ltv_result, clk')
    | (inl e, clk') =>
        (BatchError (get_user_id user_features) e, clk')
    end.

Fixpoint batch_loop (self : ModelLoader.t) (users_features : list (gmap string pyval))
         (results : list BatchEntry) (clk : Clock) : list BatchEntry * Clock :=
  match users_features with
  | [] => (results, clk)
  | user_features :: rest =>
      let '(entry, clk') := batch_item self user_features clk in
      batch_loop self rest (results ++ [entry])%list clk'
  end.

(** [predict_batch] *)
Definition predict_batch (self : ModelLoader.t)
           (users_features : list (gmap string pyval)) : Clock -> list BatchEntry * Clock :=
  batch_loop self users_features [].

End Engine.

End PredictionEngine.

(* ===================================================================== *)
(** ** A concrete serving session, used to run the code on examples *)
(* ===================================================================== *)

Module Demo.

Import PredictionEngine.

(** A [float()] that accepts no string. *)
Definition strict_float (s : string) : Exc Q :=
  raise ("could not convert string to float: '" ++ s ++ "'").

(** A scaler with mean 0 and scale 1: it passes numbers through and
    raises on a cell that is not a number. *)
Fixpoint numeric_cells (cs : list pyval) : Exc (list Q) :=
  match cs with
  | [] => ret []
  | PyNum q :: cs' => (let! qs := numeric_cells cs' in ret (q :: qs))%exc
  | _ :: _ => raise "could not convert string to float"
  end.

Definition identity_scaler : Scaler := mkScaler (fun X => numeric_cells (cells X)).

(** A classifier whose class-1 probability is the first scaled feature. *)
Definition first_feature (xs : list Q) : Exc Q :=
  match xs with
  | x :: _ => ret x
  | [] => raise "index 0 is out of bounds"
  end.

Definition churn_estimator : Estimator :=
  mkEstimator
    (fun xs => (let! p := first_feature xs in ret (if Qgeb p (1 # 2) then 1 else 0)%Q)%exc)
    (Some first_feature)
    (Some [1 # 10; 9 # 10]%Q).

(** A regressor whose output is the first scaled feature; it exposes no
    importances. *)
Definition ltv_estimator : Estimator :=
  mkEstimator first_feature None None.

Definition churn_names : list string := ["score"; "days_since_last_run"].
Definition ltv_names : list string := ["value"].

Definition all_files : ModelLoader.FileSystem :=
  <["models/churn_model_v1.0.0.pkl" := inr (AEstimator churn_estimator)]>
  (<["models/churn_scaler_v1.0.0.pkl" := inr (AScaler identity_scaler)]>
  (<["models/churn_features_v1.0.0.pkl" := inr (AFeatureNames churn_names)]>
  (<["models/ltv_model_v1.0.0.pkl" := inr (AEstimator ltv_estimator)]>
  (<["models/ltv_scaler_v1.0.0.pkl" := inr (AScaler identity_scaler)]>
  (<["models/ltv_features_v1.0.0.pkl" := inr (AFeatureNames ltv_names)]> ∅))))).

(** The same directory with the LTV estimator file deleted. *)
Definition churn_files_only : ModelLoader.FileSystem :=
  delete "models/ltv_model_v1.0.0.pkl" all_files.

Definition fresh : ModelLoader.t := ModelLoader.init "models" "v1.0.0".

Definition loader : ModelLoader.t := (ModelLoader.load_all_models all_files fresh).2.

Definition clock : Clock :=
  fun n =>
    match n with
    | O => "2024-01-01T00:00:00.000001"
    | _ => "2024-01-01T00:00:00.000002"
    end.

(** A request body. *)
Definition user (uid score value : Q) : gmap string pyval :=
  <["user_id" := PyNum uid]>
  (<["score" := PyNum score]>
  (<["value" := PyNum value]>
  (<["days_since_last_run" := PyNum 5]> ∅))).


(** A request body whose [score] field is a string. *)
Definition bad_user (uid : Q) : gmap string pyval :=
  <["score" := PyStr "high"]> (user uid 0 0).

(** Two churn frames that differ in both cells. *)
Definition frame_a : DataFrame := mkFrame churn_names [PyNum (1 # 2); PyNum 5].
Definition frame_b : DataFrame := mkFrame churn_names [PyNum (9 # 10); PyNum 60].

(** A batch of three records whose second one cannot be scaled. *)
Definition batch : list (gmap string pyval) :=
  [user 1 (7 # 10) 500; bad_user 2; user 3 (4 # 10) 0].

End Demo.


(* ===================================================================== *)
(** ** Vocabulary of the statements *)
(* ===================================================================== *)

Module Spec.

Import FeatureEngineer ModelLoader PredictionEngine.
Local Open Scope Q_scope.

(** The formula of the specification for the monthly activity rate, with
    [max(days_on_platform/30, 1)] as the divisor. *)
Definition spec_monthly_activity_rate (r : RawRecord) : Q :=
  clip (running_sessions_count r / py_max (days_on_platform r / 30) 1) 0 50.

(** An account that is fifteen days old and has ten sessions. *)
Definition young_account : RawRecord :=
  mkRaw 10 10 10 50 50 1 5 15 1 140 175 20 6 0 0 1 0.

(** The artifact names in the order [load_all_models] reads them. *)
Definition artifact_names : list string :=
  ["churn_model"; "churn_scaler"; "churn_features";
   "ltv_model"; "ltv_scaler"; "ltv_features"].

(** What a file yields when it can be loaded. *)
Definition loads (fs : FileSystem) (self : t) (model_name : string) : option artifact :=
  match _load_model fs self model_name with
  | inr a => Some a
  | inl _ => None
  end.

(** [after fs self earlier name]: what the file [name] yields, provided
    every file of [earlier] could be loaded. *)
Definition after (fs : FileSystem) (self : t) (earlier : list string) (name : string)
  : option artifact :=
  if forallb (fun n => bool_decide (is_Some (loads fs self n))) earlier
  then loads fs self name
  else None.

(** What an entry owes to the model alone. *)
Definition model_part (e : FeatureImportance) : string * Q * nat :=
  (feature_name e, importance_score e, rank e).

(** Descending order of [importance_score]. *)
Definition descending (l : list FeatureImportance) : Prop :=
  StronglySorted (fun a b => importance_score b <= importance_score a) l.

(** The entry built for index [i]. *)
Definition entry_at (float_of_str : string -> Exc Q) (X : DataFrame)
           (names : list string) (importances : list Q) (e : FeatureImportance) (i : nat)
  : Prop :=
  rank e = (i + 1)%nat /\
  names !! i = Some (feature_name e) /\
  (exists importance, importances !! i = Some importance /\
                      importance_score e = py_round importance 4) /\
  (exists cell, cells X !! i = Some cell /\
                py_float float_of_str cell = inr (feature_value e)).

End Spec.

(* ===================================================================== *)
(** ** app.py: start-up and the single-record endpoints *)
(* ===================================================================== *)

Module App.

(** The module-level globals.  A [PredictionEngine] holds nothing but its
    loader, so the engine global is the loader it was built around. *)
Record Globals : Type := mkGlobals {
  model_loader : option ModelLoader.t;
  prediction_engine : option ModelLoader.t
}.

(** The globals when the module has just been imported. *)
Definition unset : Globals := mkGlobals None None.

(** The body of [initialize], for the values [MODELS_PATH] and
    [MODEL_VERSION] read from the environment.  The loader is bound to the
    global before it is filled, so it stays bound when loading fails.  How
    the function is run, as a [before_first_request] hook, is [handle]
    below. *)
Definition initialize (fs : ModelLoader.FileSystem) (MODELS_PATH MODEL_VERSION : string)
           (g : Globals) : Exc unit * Globals :=
  let '(success, loader) :=
    ModelLoader.load_all_models fs (ModelLoader.init MODELS_PATH MODEL_VERSION) in
  if success
  then (ret tt, mkGlobals (Some loader) (Some loader))
  else (raise "Failed to load models", mkGlobals (Some loader) (prediction_engine g)).

(** The bodies handed to [jsonify]. *)
Inductive Body : Type :=
| HealthBody (status service version : string) (models_loaded : bool)
| ErrorBody (error : string)
| FailureBody (error : string)
| ChurnBody (user_id : pyval) (prediction : PredictionEngine.Churn.Result)
| LtvBody (user_id : pyval) (prediction : PredictionEngine.Ltv.Result)
| AllBody (user_id : pyval) (churn : PredictionEngine.Churn.Result)
          (ltv : PredictionEngine.Ltv.Result)
| BatchBody (count : nat) (predictions : list PredictionEngine.BatchEntry).

(** A response: the body and the status code. *)
Definition Response : Type := (Body * Z)%type.

(** What [request.json] gives for the requests modelled here: it raises
    (a body that is not JSON), or it is [None] (a JSON [null]) or a JSON
    object with scalar members. *)
Definition RequestJson : Type := Exc (option (gmap string pyval)).

(** [not request.json] *)
Definition falsy (json : option (gmap string pyval)) : bool :=
  match json with
  | None => true
  | Some d => bool_decide (d = ∅)
  end.

(** A member of the JSON object sent to [/predict/batch]: a scalar, or a
    list of records (JSON objects with scalar members). *)
Inductive Member : Type :=
| Scalar (v : pyval)
| Records (users : list (gmap string pyval)).

(** [request.json] for [/predict/batch], on the same terms as
    [RequestJson]. *)
Definition BatchRequestJson : Type := Exc (option (gmap string Member)).

(** [health] *)
Definition health (MODEL_VERSION : string) (g : Globals) : Response :=
  (HealthBody "healthy" "Prediction Service" MODEL_VERSION
              (bool_decide (is_Some (model_loader g)) &&
               bool_decide (is_Some (prediction_engine g))),
   200%Z).

Section Endpoints.

Variable float_of_str : string -> Exc Q.

(** The shape shared by the three prediction views: the service check,
    the two validations of the request, the call into the engine, and the
    [except] clause around all of it. *)
Definition view {A : Type}
           (call : ModelLoader.t -> gmap string pyval -> PredictionEngine.M A)
           (success : pyval -> A -> Body)
           (g : Globals) (request_json : RequestJson)
  : PredictionEngine.Clock -> Response * PredictionEngine.Clock :=
  fun clk =>
    match prediction_engine g with
    | None => ((ErrorBody "Service not initialized", 503%Z), clk)
    | Some engine =>
        match request_json with
        | inl e => ((FailureBody e, 500%Z), clk)
        | inr json =>
            if falsy json
            then ((ErrorBody "No data provided", 400%Z), clk)
            else
              let features := default ∅ json in
              match features !! "user_id" with
              | None => ((ErrorBody "user_id is required", 400%Z), clk)
              | Some user_id =>
                  match call engine features clk with
                  | (inr result, clk') => ((success user_id result, 200%Z), clk')
                  | (inl e, clk') => ((FailureBody e, 500%Z), clk')
                  end
              end
        end
    end.

(** [predict_churn], the view behind [/predict/churn]. *)
Definition predict_churn : Globals -> RequestJson ->
                           PredictionEngine.Clock -> Response * PredictionEngine.Clock :=
  view (PredictionEngine.predict_churn float_of_str) ChurnBody.

(** [predict_ltv], the view behind [/predict/ltv]. *)
Definition predict_ltv : Globals -> RequestJson ->
                         PredictionEngine.Clock -> Response * PredictionEngine.Clock :=
  view (PredictionEngine.predict_ltv float_of_str) LtvBody.

(** [predict_all], the view behind [/predict/all]: the churn prediction,
    then the LTV prediction. *)
Definition predict_all : Globals -> RequestJson ->
                         PredictionEngine.Clock -> Response * PredictionEngine.Clock :=
  view (fun engine features =>
          PredictionEngine.bind_m
            (PredictionEngine.predict_churn float_of_str engine features)
            (fun churn_result =>
               PredictionEngine.bind_m
                 (PredictionEngine.predict_ltv float_of_str engine features)
                 (fun ltv_result => PredictionEngine.unit_m (churn_result, ltv_result))))
       (fun user_id results => AllBody user_id results.1 results.2).

(** [predict_batch], the view behind [/predict/batch]. *)
Definition predict_batch (g : Globals) (request_json : BatchRequestJson)
  : PredictionEngine.Clock -> Response * PredictionEngine.Clock :=
  fun clk =>
    match prediction_engine g with
    | None => ((ErrorBody "Service not initialized", 503%Z), clk)
    | Some engine =>
        match request_json with
        | inl e => ((FailureBody e, 500%Z), clk)
        | inr None => ((ErrorBody "No users data provided", 400%Z), clk)
        | inr (Some json) =>
            match json !! "users" with
            | None => ((ErrorBody "No users data provided", 400%Z), clk)
            | Some (Scalar _) => ((ErrorBody "users must be a list", 400%Z), clk)
            | Some (Records users_features) =>
                let '(results, clk') :=
                  PredictionEngine.predict_batch float_of_str engine users_features clk in
                ((BatchBody (length results) results, 200%Z), clk')
            end
        end
    end.

End Endpoints.

(** *** Serving

    [initialize] is registered with [@app.before_first_request]: Flask
    runs it at the start of a request as long as no request has got past
    it, and counts the first request as handled only once it has returned.
    An exception that escapes it never reaches a view; it is answered by
    the handler registered with [@app.errorhandler(500)]. *)





Section Serving.

Variable float_of_str : string -> Exc Q.
Variables MODELS_PATH MODEL_VERSION : string.




End Serving.

End App.

(* ===================================================================== *)
(** ** Further vocabulary *)
(* ===================================================================== *)

Module Vocab.

Import PredictionEngine.
Local Open Scope Q_scope.

(** [m'] still finds whatever [m] found, and differs from [m] at most
    under the keys ['churn'] and ['ltv']. *)
Definition keeps (m m' : gmap string artifact) : Prop :=
  forall k : string,
    (is_Some (m !! k) -> is_Some (m' !! k)) /\
    (k <> "churn"%string -> k <> "ltv"%string -> m' !! k = m !! k).

(** A loader that was only added to. *)
Definition extends (self self' : ModelLoader.t) : Prop :=
  ModelLoader.models_dir self' = ModelLoader.models_dir self /\
  ModelLoader.model_version self' = ModelLoader.model_version self /\
  keeps (ModelLoader.models self) (ModelLoader.models self') /\
  keeps (ModelLoader.scalers self) (ModelLoader.scalers self') /\
  keeps (ModelLoader.feature_names self) (ModelLoader.feature_names self').

(** [a] is listed before [b] by a stable descending sort: a strictly
    higher score, or the same score and an earlier place in the feature
    list. *)
Definition before (a b : FeatureImportance) : Prop :=
  importance_score b < importance_score a \/
  (importance_score b == importance_score a /\ (rank a < rank b)%nat).

(** Two dicts that hold the same thing under every name of a list. *)
Definition agree_on (names : list string) (d1 d2 : gmap string pyval) : Prop :=
  forall n, In n names -> d1 !! n = d2 !! n.

(** The error text of an engine whose loader holds no feature names. *)
Definition not_loaded_message : string := "'NoneType' object is not iterable".

End Vocab.

(* ===================================================================== *)
(** ** A second serving session, with a classifier that clips *)
(* ===================================================================== *)

Module Fixtures.

(** A classifier whose class-1 probability is the first scaled feature
    clipped to [0, 1]. *)
Definition clipped_estimator : Estimator :=
  mkEstimator
    (fun xs => (let! p := Demo.first_feature xs in ret (if Qgeb p (1 # 2) then 1 else 0)%Q)%exc)
    (Some (fun xs => (let! p := Demo.first_feature xs in ret (clip p 0 1))%exc))
    (Some [1 # 10; 9 # 10]%Q).

Definition clipped_loader : ModelLoader.t :=
  ModelLoader.set_model "churn" (AEstimator clipped_estimator) Demo.loader.

(** The globals of a started service. *)
Definition started : App.Globals := App.mkGlobals (Some Demo.loader) (Some Demo.loader).

End Fixtures.

(* ===================================================================== *)
(** ** Facts about the runtime fragments *)
(* ===================================================================== *)

Module PyFacts.

Local Open Scope Q_scope.

Lemma Qltb_true (x y : Q) : Qltb x y = true <-> x < y.
Proof.
  unfold Qltb. rewrite negb_true_iff, <- not_true_iff_false, Qle_bool_iff.
  split; [apply Qnot_le_lt | apply Qlt_not_le].
Qed.

Lemma Qltb_false (x y : Q) : Qltb x y = false <-> y <= x.
Proof.
  unfold Qltb. rewrite negb_false_iff. apply Qle_bool_iff.
Qed.

Lemma Qgtb_true (x y : Q) : Qgtb x y = true <-> y < x.
Proof. apply (Qltb_true y x). Qed.

Lemma Qgtb_false (x y : Q) : Qgtb x y = false <-> x <= y.
Proof. apply (Qltb_false y x). Qed.

Lemma Qgeb_true (x y : Q) : Qgeb x y = true <-> y <= x.
Proof. apply Qle_bool_iff. Qed.

Lemma Qgeb_false (x y : Q) : Qgeb x y = false <-> x < y.
Proof.
  unfold Qgeb. rewrite <- not_true_iff_false, Qle_bool_iff.
  split; [apply Qnot_le_lt | apply Qlt_not_le].
Qed.

Lemma Qeq_bool_false (x y : Q) : Qeq_bool x y = false <-> ~ x == y.
Proof. rewrite <- not_true_iff_false, Qeq_bool_iff. tauto. Qed.

(** Turn every boolean comparison in sight into the order fact it
    decides. *)
Ltac qprop :=
  repeat match goal with
  | H : Qltb _ _ = true |- _ => apply Qltb_true in H
  | H : Qltb _ _ = false |- _ => apply Qltb_false in H
  | H : Qgtb _ _ = true |- _ => apply Qgtb_true in H
  | H : Qgtb _ _ = false |- _ => apply Qgtb_false in H
  | H : Qgeb _ _ = true |- _ => apply Qgeb_true in H
  | H : Qgeb _ _ = false |- _ => apply Qgeb_false in H
  | H : Qle_bool _ _ = true |- _ => apply Qle_bool_iff in H
  | H : Qle_bool _ _ = false |- _ =>
      apply not_true_iff_false in H; rewrite Qle_bool_iff in H
  | H : Qeq_bool _ _ = true |- _ => apply Qeq_bool_iff in H
  | H : Qeq_bool _ _ = false |- _ => apply Qeq_bool_false in H
  end.

(** [lra] after division by a literal has been turned into a product. *)
Ltac qlra := unfold Qdiv in *; cbn [Qinv Qnum Qden] in *; lra.

Lemma py_max_ge_l (a b : Q) : a <= py_max a b.
Proof.
  unfold py_max. destruct (Qltb a b) eqn:E; qprop; [apply Qlt_le_weak, E | apply Qle_refl].
Qed.

Lemma py_max_ge_r (a b : Q) : b <= py_max a b.
Proof.
  unfold py_max. destruct (Qltb a b) eqn:E; qprop; [apply Qle_refl | exact E].
Qed.

Lemma py_max_cases (a b : Q) : py_max a b = a \/ py_max a b = b.
Proof. unfold py_max. destruct (Qltb a b); auto. Qed.




Lemma bind_inr {A B} (m : Exc A) (k : A -> Exc B) (b : B) :
  bind m k = inr b -> exists a, m = inr a /\ k a = inr b.
Proof. destruct m as [e | a]; simpl; [discriminate | eauto]. Qed.

Lemma bind_inl {A B} (m : Exc A) (k : A -> Exc B) (e : string) :
  bind m k = inl e -> m = inl e \/ exists a, m = inr a /\ k a = inl e.
Proof. destruct m as [e' | a]; simpl; [intros [= ->]; auto | eauto]. Qed.

End PyFacts.

(* ===================================================================== *)
(** ** Rounding *)
(* ===================================================================== *)

Module RoundFacts.

Import PyFacts.
Local Open Scope Q_scope.

Lemma pow10_pos (n : nat) : 0 < inject_Z (pow10 n).
Proof.
  unfold pow10. change 0 with (inject_Z 0). rewrite <- Zlt_Qlt.
  apply Z.pow_pos_nonneg; lia.
Qed.

(** Rounding never crosses an integer. *)
Lemma round_half_even_ge (m : Z) (y : Q) :
  inject_Z m <= y -> (m <= round_half_even y)%Z.
Proof.
  intros H. unfold round_half_even.
  assert (Hf : (m <= Qfloor y)%Z).
  { rewrite <- (Qfloor_Z m). apply Qfloor_resp_le, H. }
  destruct (y - inject_Z (Qfloor y) ?= 1 # 2); [destruct (Z.even (Qfloor y)) | |]; lia.
Qed.

Lemma round_half_even_le (m : Z) (y : Q) :
  y <= inject_Z m -> (round_half_even y <= m)%Z.
Proof.
  intros H. unfold round_half_even.
  pose proof (Qfloor_le y) as Hlo.
  assert (Hf : (Qfloor y <= m)%Z) by (rewrite Zle_Qle; lra).
  assert (Hstep : 0 < y - inject_Z (Qfloor y) -> (Qfloor y + 1 <= m)%Z).
  { intros Hd. assert (Hlt : (Qfloor y < m)%Z) by (rewrite Zlt_Qlt; lra). lia. }
  destruct (y - inject_Z (Qfloor y) ?= 1 # 2) eqn:E.
  - apply Qeq_alt in E. destruct (Z.even (Qfloor y)); [exact Hf |].
    apply Hstep. lra.
  - exact Hf.
  - apply Qgt_alt in E. apply Hstep. lra.
Qed.

Lemma py_round_scaled (x : Q) (n : nat) :
  py_round x n * inject_Z (pow10 n)
  == inject_Z (round_half_even (x * inject_Z (pow10 n))).
Proof.
  unfold py_round. rewrite Qred_correct.
  pose proof (pow10_pos n) as Hp.
  rewrite Qmult_comm. apply Qmult_div_r. lra.
Qed.

(** A number between two integers, once scaled, rounds to a number
    between them. *)
Lemma py_round_range (x : Q) (n : nat) (lo hi : Z) :
  inject_Z lo <= x * inject_Z (pow10 n) ->
  x * inject_Z (pow10 n) <= inject_Z hi ->
  inject_Z lo <= py_round x n * inject_Z (pow10 n) /\
  py_round x n * inject_Z (pow10 n) <= inject_Z hi.
Proof.
  intros Hlo Hhi. rewrite py_round_scaled. rewrite <- !Zle_Qle.
  split; [apply round_half_even_ge, Hlo | apply round_half_even_le, Hhi].
Qed.

(** Rounding looks at the number, not at the fraction that denotes it. *)
Lemma py_round_comp (x y : Q) (n : nat) : x == y -> py_round x n = py_round y n.
Proof.
  intros H. unfold py_round, round_half_even.
  assert (Hs : x * inject_Z (pow10 n) == y * inject_Z (pow10 n)) by (rewrite H; reflexivity).
  rewrite (Qfloor_comp _ _ Hs).
  assert (Hc : (x * inject_Z (pow10 n) - inject_Z (Qfloor (y * inject_Z (pow10 n))) ?= 1 # 2)
               = (y * inject_Z (pow10 n) - inject_Z (Qfloor (y * inject_Z (pow10 n))) ?= 1 # 2)).
  { apply Qcompare_comp; [rewrite Hs |]; reflexivity. }
  rewrite Hc. reflexivity.
Qed.

Lemma clip_range (x lo hi : Q) : lo <= hi -> lo <= clip x lo hi /\ clip x lo hi <= hi.
Proof.
  intros H. unfold clip, py_min, py_max.
  destruct (Qltb x lo) eqn:E1;
    [destruct (Qltb hi lo) eqn:E2 | destruct (Qltb hi x) eqn:E2];
    qprop; split; lra.
Qed.

(** Inside its bounds [clip] changes nothing. *)
Lemma clip_inside (x lo hi : Q) : lo <= x -> x <= hi -> clip x lo hi = x.
Proof.
  intros H1 H2. unfold clip, py_min, py_max.
  destruct (Qltb x lo) eqn:E1; qprop; [lra |].
  destruct (Qltb hi x) eqn:E2; qprop; [lra | reflexivity].
Qed.

End RoundFacts.

(* ===================================================================== *)
(** ** Properties of the feature derivation *)
(* ===================================================================== *)

Module FeatureEngineerSpec.

Import FeatureEngineer Spec PyFacts.
Local Open Scope Q_scope.

Lemma astype_int_inr (col : list (option Z)) (zs : list Z) :
  astype_int col = inr zs -> col = map Some zs.
Proof.
  revert zs. induction col as [| [z |] col IH]; simpl; intros zs H.
  - injection H as <-. reflexivity.
  - apply bind_inr in H as (zs' & Hcol & Hret).
    injection Hret as <-. simpl. f_equal. auto.
  - discriminate.
Qed.

Lemma astype_int_inl (col : list (option Z)) (e : string) :
  astype_int col = inl e ->
  e = "Cannot convert float NaN to integer"%string /\ In None col.
Proof.
  induction col as [| [z |] col IH]; simpl; intros H.
  - discriminate.
  - apply bind_inl in H as [H | (zs & _ & H)]; [| discriminate].
    destruct (IH H); auto.
  - injection H as <-. auto.
Qed.

Lemma astype_int_total (col : list (option Z)) :
  ~ In None col -> exists zs, astype_int col = inr zs.
Proof.
  induction col as [| [z |] col IH]; simpl; intros H.
  - eauto.
  - destruct IH as [zs ->]; [tauto |]. simpl. eauto.
  - tauto.
Qed.

Lemma zip_rows_lookup (df : list RawRecord) (als pcs : list Z) (i : nat) (d : DerivedRow) :
  zip_rows df als pcs !! i = Some d ->
  exists al pc, df !! i = Some (raw d) /\ d = derive_row (raw d) al pc.
Proof.
  revert als pcs i.
  induction df as [| r df IH]; intros [| al als] [| pc pcs] i; simpl; try discriminate.
  destruct i as [| i]; simpl.
  - intros [= <-]. simpl. eauto.
  - apply IH.
Qed.

Lemma calculate_all_features_lookup (df : list RawRecord) (out : list DerivedRow)
      (i : nat) (d : DerivedRow) :
  calculate_all_features df = inr out -> out !! i = Some d ->
  exists al pc, df !! i = Some (raw d) /\ d = derive_row (raw d) al pc.
Proof.
  unfold calculate_all_features. intros H Hd.
  apply bind_inr in H as (als & _ & H).
  apply bind_inr in H as (pcs & _ & H).
  injection H as <-. eapply zip_rows_lookup; eauto.
Qed.

(** The pace of a row falls in no bin exactly when it is not positive. *)
Lemma pace_category_cut_none (r : RawRecord) :
  pace_category_cut r = None <-> avg_pace_min_per_km r <= 0.
Proof.
  unfold pace_category_cut. simpl.
  destruct (Qltb 0 (avg_pace_min_per_km r)) eqn:E0; simpl.
  - qprop. split; [| intros H; exfalso; apply (Qlt_not_le _ _ E0 H)].
    repeat match goal with
    | |- context [Qle_bool ?a ?b] => destruct (Qle_bool a b) eqn:?; simpl
    | |- context [Qltb ?a ?b] => destruct (Qltb a b) eqn:?; simpl
    end; try discriminate; qprop; intros _; lra.
  - qprop.
    repeat match goal with
    | |- context [Qltb ?a ?b] => destruct (Qltb a b) eqn:?; simpl
    end; qprop; split; auto; try lra.
Qed.

(** The session count of a row falls in no bin exactly when it is at most
    [-1]. *)
Lemma activity_level_cut_none (r : RawRecord) :
  activity_level_cut r = None <-> running_sessions_count r <= -1.
Proof.
  unfold activity_level_cut. simpl.
  destruct (Qltb (-1) (running_sessions_count r)) eqn:E0; simpl.
  - qprop. split; [| intros H; exfalso; apply (Qlt_not_le _ _ E0 H)].
    repeat match goal with
    | |- context [Qle_bool ?a ?b] => destruct (Qle_bool a b) eqn:?; simpl
    | |- context [Qltb ?a ?b] => destruct (Qltb a b) eqn:?; simpl
    end; try discriminate; qprop; intros _; lra.
  - qprop.
    repeat match goal with
    | |- context [Qltb ?a ?b] => destruct (Qltb a b) eqn:?; simpl
    end; qprop; split; auto; try lra.
Qed.

(** The derivation returns on every frame whose rows have a positive pace
    and a session count above [-1], and then has one output row per input
    row. *)
Lemma calculate_all_features_positive_pace (df : list RawRecord) :
  (forall r, In r df -> -1 < running_sessions_count r /\ 0 < avg_pace_min_per_km r) ->
  exists out, calculate_all_features df = inr out /\ length out = length df.
Proof.
  intros Hdf. unfold calculate_all_features.
  destruct (astype_int_total (map activity_level_cut df)) as [als Hals].
  { rewrite in_map_iff. intros (r & Hr & Hin).
    apply activity_level_cut_none in Hr. destruct (Hdf r Hin) as [H _].
    apply (Qlt_not_le _ _ H Hr). }
  destruct (astype_int_total (map pace_category_cut df)) as [pcs Hpcs].
  { rewrite in_map_iff. intros (r & Hr & Hin).
    apply pace_category_cut_none in Hr. destruct (Hdf r Hin) as [_ H].
    apply (Qlt_not_le _ _ H Hr). }
  rewrite Hals, Hpcs. simpl. eexists; split; [reflexivity |].
  apply astype_int_inr in Hals, Hpcs.
  assert (La : length als = length df)
    by (rewrite <- (length_map activity_level_cut df), Hals, length_map; reflexivity).
  assert (Lp : length pcs = length df)
    by (rewrite <- (length_map pace_category_cut df), Hpcs, length_map; reflexivity).
  clear - La Lp. revert als pcs La Lp.
  induction df as [| r df IH]; intros [| al als] [| pc pcs]; simpl; try discriminate; auto.
Qed.

(** A frame holding a row whose pace is not positive makes the derivation
    raise. *)
Lemma calculate_all_features_pace_raises (df : list RawRecord) (r : RawRecord) :
  In r df -> avg_pace_min_per_km r <= 0 -> raises (calculate_all_features df).
Proof.
  intros Hin Hpace. unfold calculate_all_features, raises.
  destruct (astype_int (map activity_level_cut df)) as [e | als]; simpl; [eauto |].
  destruct (astype_int (map pace_category_cut df)) as [e | pcs] eqn:E; simpl; [eauto |].
  exfalso. apply astype_int_inr in E.
  assert (In (pace_category_cut r) (map pace_category_cut df)) as Hc
    by (apply in_map; exact Hin).
  rewrite (proj2 (pace_category_cut_none r) Hpace), E in Hc.
  apply in_map_iff in Hc as (z & Hz & _). discriminate.
Qed.

(** C7 (evaluation at the failing input): on the frame of the module's own
    self-test, whose third user has [avg_pace_min_per_km = 0] and
    [running_sessions_count = 2], [calculate_all_features] raises pandas'
    "Cannot convert float NaN to integer" instead of returning the derived
    frame; on the first two users alone it returns two rows. *)
Theorem calculate_all_features_self_test_raises :
  calculate_all_features sample_data = inl "Cannot convert float NaN to integer"%string /\
  (exists out, calculate_all_features (take 2 sample_data) = inr out /\ length out = 2%nat) /\
  nth_error (map avg_pace_min_per_km sample_data) 2 = Some 0.
Proof.
  split; [vm_compute; reflexivity |].
  split; [| reflexivity].
  eexists. split; [vm_compute; reflexivity | reflexivity].
Qed.

(** C8 (counterexample): for an account that is 15 days old with 10
    sessions the code returns a monthly activity rate of 20, while
    [clip(10 / max(15/30, 1), 0, 50)] is 10. *)
Lemma monthly_activity_rate_not_max :
  exists d,
    calculate_all_features [young_account] = inr [d] /\
    monthly_activity_rate d == 20 /\
    spec_monthly_activity_rate young_account == 10 /\
    ~ monthly_activity_rate d == spec_monthly_activity_rate young_account.
Proof.
  eexists. split; [vm_compute; reflexivity |].
  vm_compute. repeat split; discriminate.
Qed.

(** C8 (amended): in every row returned by [calculate_all_features],
    [monthly_activity_rate] is [clip(sessions / (days_on_platform/30), 0, 50)]
    when [days_on_platform] is not zero and [clip(sessions / 1, 0, 50)] when
    it is zero; only an exact zero divisor is replaced by 1.  This is the
    formula with [max(days_on_platform/30, 1)] whenever the account is at
    least 30 days old or exactly 0 days old. *)
Theorem monthly_activity_rate_replaces_zero
        (df : list RawRecord) (out : list DerivedRow) (i : nat) (d : DerivedRow) :
  calculate_all_features df = inr out ->
  out !! i = Some d ->
  df !! i = Some (raw d) /\
  (~ days_on_platform (raw d) == 0 ->
   monthly_activity_rate d =
   clip (running_sessions_count (raw d) / (days_on_platform (raw d) / 30)) 0 50) /\
  (days_on_platform (raw d) == 0 ->
   monthly_activity_rate d = clip (running_sessions_count (raw d) / 1) 0 50) /\
  (days_on_platform (raw d) == 0 \/ 30 <= days_on_platform (raw d) ->
   monthly_activity_rate d = spec_monthly_activity_rate (raw d)).
Proof.
  intros Hout Hd.
  destruct (calculate_all_features_lookup _ _ _ _ Hout Hd) as (al & pc & Hr & Heq).
  split; [exact Hr |].
  assert (Hm : monthly_activity_rate d = calc_monthly_activity_rate (raw d))
    by (rewrite Heq at 1; reflexivity).
  rewrite Hm. unfold calc_monthly_activity_rate, spec_monthly_activity_rate, replace_0_1.
  set (days := days_on_platform (raw d)).
  destruct (Qeq_bool (days / 30) 0) eqn:E; qprop.
  - assert (Hz : days == 0) by qlra.
    split; [tauto |]. split; [reflexivity |]. intros _.
    unfold py_max. destruct (Qltb (days / 30) 1) eqn:E1; [reflexivity |].
    qprop. qlra.
  - assert (Hz : ~ days == 0) by (intros Hz; apply E; qlra).
    split; [reflexivity |]. split; [tauto |]. intros [H | H]; [tauto |].
    unfold py_max. destruct (Qltb (days / 30) 1) eqn:E1; [| reflexivity].
    qprop. qlra.
Qed.

(** Witness of [monthly_activity_rate_replaces_zero] on the self-test's
    first user. *)
Lemma monthly_activity_rate_replaces_zero_witness :
  exists out d,
    calculate_all_features (take 1 sample_data) = inr out /\
    out !! 0%nat = Some d /\
    monthly_activity_rate d = spec_monthly_activity_rate (raw d).
Proof.
  eexists. eexists.
  split; [vm_compute; reflexivity |].
  split; [reflexivity |].
  eapply (monthly_activity_rate_replaces_zero (take 1 sample_data) _ 0).
  - vm_compute. reflexivity.
  - reflexivity.
  - right. vm_compute. discriminate.
Defined.

End FeatureEngineerSpec.

(* ===================================================================== *)
(** ** Properties of the artifact loader *)
(* ===================================================================== *)

Module ModelLoaderSpec.

Import ModelLoader Spec PyFacts.

Lemma loads_missing (fs : FileSystem) (self : t) (name : string) :
  fs !! model_path self name = None -> loads fs self name = None.
Proof. unfold loads, _load_model. intros ->. reflexivity. Qed.

(** The getters of a loader right after [__init__] find nothing. *)
Lemma init_not_found (dir ver model_type : string) :
  get_model (init dir ver) model_type = None /\
  get_scaler (init dir ver) model_type = None /\
  get_feature_names (init dir ver) model_type = None.
Proof. repeat split; apply lookup_empty. Qed.

(** One statement of the [try] block: split on what the file yields; when
    it yields nothing the block is left and every remaining goal is
    closed, otherwise the next statement sees the same directory and
    version. *)
Ltac load_step fs self name :=
  destruct (_load_model fs self name) eqn:?;
  [ simpl; repeat split;
    first [ discriminate
          | reflexivity
          | intros H; decompose [and] H;
            repeat match goal with
            | H' : is_Some None |- _ => destruct H' as [? H']; discriminate H'
            end ]
  | repeat match goal with
    | |- context [_load_model fs ?s ?n] =>
        lazymatch s with
        | self => fail
        | _ => change (_load_model fs s n) with (_load_model fs self n)
        end
    end ].

(** The outcome of [load_all_models] on a fresh loader, file by file. *)
Lemma load_all_models_fresh (fs : FileSystem) (dir ver : string) :
  let self := init dir ver in
  let ok := (load_all_models fs self).1 in
  let self' := (load_all_models fs self).2 in
  (ok = true <-> Forall (fun n => is_Some (loads fs self n)) artifact_names) /\
  get_model self' "churn" = after fs self [] "churn_model" /\
  get_scaler self' "churn" = after fs self ["churn_model"] "churn_scaler" /\
  get_feature_names self' "churn" =
    after fs self ["churn_model"; "churn_scaler"] "churn_features" /\
  get_model self' "ltv" =
    after fs self ["churn_model"; "churn_scaler"; "churn_features"] "ltv_model" /\
  get_scaler self' "ltv" =
    after fs self ["churn_model"; "churn_scaler"; "churn_features"; "ltv_model"]
          "ltv_scaler" /\
  get_feature_names self' "ltv" =
    after fs self ["churn_model"; "churn_scaler"; "churn_features"; "ltv_model";
                   "ltv_scaler"] "ltv_features".
Proof.
  intros self ok self'. subst ok self'.
  unfold load_all_models, load_body, seq, assign, after, loads, artifact_names.
  unfold get_model, get_scaler, get_feature_names.
  rewrite !Forall_cons, Forall_nil. cbn [forallb]. cbn beta.
  load_step fs self "churn_model".
  load_step fs self "churn_scaler".
  load_step fs self "churn_features".
  load_step fs self "ltv_model".
  load_step fs self "ltv_scaler".
  load_step fs self "ltv_features".
  simpl. repeat split; eauto.
Qed.

(** C6 (counterexample): with the three churn files present and the LTV
    estimator file missing, [load_all_models] on a fresh loader returns
    [False], yet the churn model, scaler and feature names stay in the
    loader and the getters hand them out. *)
Lemma load_all_models_retains_partial_state :
  Demo.churn_files_only !! model_path Demo.fresh "ltv_model" = None /\
  (load_all_models Demo.churn_files_only Demo.fresh).1 = false /\
  get_model (load_all_models Demo.churn_files_only Demo.fresh).2 "churn"
    = Some (AEstimator Demo.churn_estimator) /\
  get_scaler (load_all_models Demo.churn_files_only Demo.fresh).2 "churn"
    = Some (AScaler Demo.identity_scaler) /\
  get_feature_names (load_all_models Demo.churn_files_only Demo.fresh).2 "churn"
    = Some (AFeatureNames Demo.churn_names) /\
  get_model (load_all_models Demo.churn_files_only Demo.fresh).2 "ltv" = None.
Proof. vm_compute. repeat split; reflexivity. Qed.

(** C6 (amended): when one of the six artifact files is missing,
    [load_all_models] on a freshly constructed loader returns [False] and
    nothing is rolled back: afterwards a getter reports an artifact exactly
    when its file and every file before it in the load order could be
    loaded, so the artifacts read before the first failure are retained and
    the others are not found; all six lookups are not-found when the first
    file, [churn_model], is the missing one. *)
Theorem load_all_models_missing_file (fs : FileSystem) (dir ver name : string) :
  In name artifact_names ->
  fs !! model_path (init dir ver) name = None ->
  let self := init dir ver in
  let self' := (load_all_models fs self).2 in
  (load_all_models fs self).1 = false /\
  get_model self' "churn" = after fs self [] "churn_model" /\
  get_scaler self' "churn" = after fs self ["churn_model"] "churn_scaler" /\
  get_feature_names self' "churn" =
    after fs self ["churn_model"; "churn_scaler"] "churn_features" /\
  get_model self' "ltv" =
    after fs self ["churn_model"; "churn_scaler"; "churn_features"] "ltv_model" /\
  get_scaler self' "ltv" =
    after fs self ["churn_model"; "churn_scaler"; "churn_features"; "ltv_model"]
          "ltv_scaler" /\
  get_feature_names self' "ltv" =
    after fs self ["churn_model"; "churn_scaler"; "churn_features"; "ltv_model";
                   "ltv_scaler"] "ltv_features" /\
  (name = "churn_model" ->
   get_model self' "churn" = None /\ get_scaler self' "churn" = None /\
   get_feature_names self' "churn" = None /\ get_model self' "ltv" = None /\
   get_scaler self' "ltv" = None /\ get_feature_names self' "ltv" = None).
Proof.
  intros Hin Hmiss self self'.
  destruct (load_all_models_fresh fs dir ver)
    as (Hok & H1 & H2 & H3 & H4 & H5 & H6).
  fold self in Hok, H1, H2, H3, H4, H5, H6.
  fold self' in H1, H2, H3, H4, H5, H6.
  apply loads_missing in Hmiss. fold self in Hmiss.
  split.
  { destruct (load_all_models fs self).1; [| reflexivity].
    exfalso. destruct Hok as [Hok _]. specialize (Hok eq_refl).
    rewrite Forall_forall in Hok. apply list_elem_of_In in Hin.
    destruct (Hok name Hin) as [a Ha]. congruence. }
  do 6 (split; [assumption |]).
  intros ->. rewrite H1, H2, H3, H4, H5, H6.
  unfold after. cbn [forallb]. rewrite Hmiss.
  repeat split; reflexivity.
Qed.

(** Witness of [load_all_models_missing_file]: the directory without the
    LTV estimator file. *)
Lemma load_all_models_missing_file_witness :
  (load_all_models Demo.churn_files_only Demo.fresh).1 = false.
Proof.
  refine (proj1 (load_all_models_missing_file
                   Demo.churn_files_only "models" "v1.0.0" "ltv_model" _ _)).
  - simpl. tauto.
  - vm_compute. reflexivity.
Defined.

End ModelLoaderSpec.

(* ===================================================================== *)
(** ** Properties of the prediction engine *)
(* ===================================================================== *)

Module PredictionEngineSpec.

Import PredictionEngine Spec PyFacts RoundFacts.

(** *** Feature alignment *)

Lemma features_list_of_map (features_dict : gmap string pyval) (feature_names : list string) :
  features_list_of features_dict feature_names
  = map (dict_get_0 features_dict) feature_names.
Proof.
  unfold features_list_of.
  assert (G : forall acc,
             fold_left (fun features_list feature_name =>
                          (features_list ++ [dict_get_0 features_dict feature_name])%list)
                       feature_names acc
             = (acc ++ map (dict_get_0 features_dict) feature_names)%list).
  { induction feature_names as [| n ns IH]; intros acc; simpl.
    - rewrite app_nil_r. reflexivity.
    - rewrite IH, <- app_assoc. reflexivity. }
  apply (G []).
Qed.

Lemma dict_get_0_insert_ne (features_dict : gmap string pyval) (k n : string) (v : pyval) :
  k <> n -> dict_get_0 (<[k := v]> features_dict) n = dict_get_0 features_dict n.
Proof. intros H. unfold dict_get_0. rewrite lookup_insert_ne by exact H. reflexivity. Qed.

Lemma dict_get_0_delete_ne (features_dict : gmap string pyval) (k n : string) :
  k <> n -> dict_get_0 (delete k features_dict) n = dict_get_0 features_dict n.
Proof. intros H. unfold dict_get_0. rewrite lookup_delete_ne by exact H. reflexivity. Qed.

(** C4: for every feature dict and every stored list of expected names,
    [_prepare_features] returns a frame whose columns are the expected
    names and whose row has one cell per expected name, in that order: the
    value stored in the dict under the name when there is one, and 0
    otherwise.  A key of the dict that is not an expected name contributes
    nothing: adding, changing or deleting it leaves the frame unchanged. *)
Theorem _prepare_features_aligned
        (self : ModelLoader.t) (features_dict : gmap string pyval)
        (model_type : string) (names : list string) :
  ModelLoader.get_feature_names self model_type = Some (AFeatureNames names) ->
  exists X,
    _prepare_features self features_dict model_type = inr X /\
    columns X = names /\
    length (cells X) = length names /\
    (forall (i : nat) (name : string), names !! i = Some name ->
       (forall v, features_dict !! name = Some v -> cells X !! i = Some v) /\
       (features_dict !! name = None -> cells X !! i = Some (PyNum 0))) /\
    (forall (k : string) (v : pyval), ~ In k names ->
       _prepare_features self (<[k := v]> features_dict) model_type = inr X) /\
    (forall k : string, ~ In k names ->
       _prepare_features self (delete k features_dict) model_type = inr X).
Proof.
  intros Hnames. unfold _prepare_features. rewrite Hnames. simpl.
  eexists. split; [reflexivity |]. simpl.
  rewrite features_list_of_map.
  split; [reflexivity |].
  split; [apply length_map |].
  split; [| split].
  - intros i name Hi.
    assert (Hc : map (dict_get_0 features_dict) names !! i
                 = Some (dict_get_0 features_dict name)).
    { change (map (dict_get_0 features_dict) names) with (dict_get_0 features_dict <$> names).
      rewrite list_lookup_fmap, Hi. reflexivity. }
    rewrite Hc. unfold dict_get_0.
    split; [intros v -> | intros ->]; reflexivity.
  - intros k v Hk. rewrite features_list_of_map. do 2 f_equal.
    apply map_ext_in. intros n Hn. apply dict_get_0_insert_ne. congruence.
  - intros k Hk. rewrite features_list_of_map. do 2 f_equal.
    apply map_ext_in. intros n Hn. apply dict_get_0_delete_ne. congruence.
Qed.

(** Witness of [_prepare_features_aligned]: the churn schema of the demo
    session. *)
Lemma _prepare_features_aligned_witness :
  exists X,
    _prepare_features Demo.loader (Demo.user 1 (1 # 2) 300) "churn" = inr X /\
    columns X = Demo.churn_names.
Proof.
  destruct (_prepare_features_aligned Demo.loader (Demo.user 1 (1 # 2) 300)
                                      "churn" Demo.churn_names)
    as (X & HX & Hcols & _).
  - vm_compute. reflexivity.
  - exists X. split; assumption.
Defined.

(** *** The two predictions, step by step *)

(** Split on the outcome of the next fallible step of a prediction. *)
Ltac step_exc :=
  match goal with
  | |- context [bind_m (lift_m ?m) ?k] =>
      let E := fresh "E" in
      destruct m eqn:E;
      [ left; eexists; intros; reflexivity
      | change (bind_m (lift_m (inr ?a)) ?k') with (k' a); cbn beta zeta ]
  end.

(** [predict_churn] either raises the same exception whatever the clock
    shows and leaves the clock alone, or every step returns and the result
    is assembled from the step values and one clock reading. *)
Lemma predict_churn_shape (float_of_str : string -> Exc Q)
      (self : ModelLoader.t) (features_dict : gmap string pyval) :
  (exists e, forall clk,
      predict_churn float_of_str self features_dict clk = (inl e, clk)) \/
  (exists X X_scaled probability label fi,
      _prepare_features self features_dict "churn" = inr X /\
      call_transform (ModelLoader.get_scaler self "churn") X = inr X_scaled /\
      call_predict_proba (ModelLoader.get_model self "churn") X_scaled = inr probability /\
      call_predict (ModelLoader.get_model self "churn") X_scaled = inr label /\
      _calculate_feature_importance float_of_str self
        (ModelLoader.get_model self "churn") X "churn" 10 = inr fi /\
      forall clk,
        predict_churn float_of_str self features_dict clk
        = (inr (Churn.mkResult (py_int label) (py_round probability 4)
                               (risk_level_of probability)
                               (py_round (py_max probability (1 - probability)) 4)
                               fi (ModelLoader.model_version self) (clk 0%nat)),
           fun n => clk (S n))).
Proof.
  unfold predict_churn. do 5 step_exc.
  right. do 5 eexists. repeat (split; [eassumption || reflexivity |]).
  intros clk. reflexivity.
Qed.

Lemma predict_ltv_shape (float_of_str : string -> Exc Q)
      (self : ModelLoader.t) (features_dict : gmap string pyval) :
  (exists e, forall clk,
      predict_ltv float_of_str self features_dict clk = (inl e, clk)) \/
  (exists X X_scaled output fi,
      _prepare_features self features_dict "ltv" = inr X /\
      call_transform (ModelLoader.get_scaler self "ltv") X = inr X_scaled /\
      call_predict (ModelLoader.get_model self "ltv") X_scaled = inr output /\
      _calculate_feature_importance float_of_str self
        (ModelLoader.get_model self "ltv") X "ltv" 10 = inr fi /\
      forall clk,
        predict_ltv float_of_str self features_dict clk
        = (inr (Ltv.mkResult (py_round (py_max output 0) 2)
                             (ltv_category_of (py_max output 0))
                             fi (ModelLoader.model_version self) (clk 0%nat)),
           fun n => clk (S n))).
Proof.
  unfold predict_ltv. do 4 step_exc.
  right. do 4 eexists. repeat (split; [eassumption || reflexivity |]).
  intros clk. reflexivity.
Qed.

Lemma predict_churn_inr (float_of_str : string -> Exc Q) (self : ModelLoader.t)
      (features_dict : gmap string pyval) (clk clk' : Clock) (r : Churn.Result) :
  predict_churn float_of_str self features_dict clk = (inr r, clk') ->
  exists X X_scaled probability label fi,
    _prepare_features self features_dict "churn" = inr X /\
    call_transform (ModelLoader.get_scaler self "churn") X = inr X_scaled /\
    call_predict_proba (ModelLoader.get_model self "churn") X_scaled = inr probability /\
    call_predict (ModelLoader.get_model self "churn") X_scaled = inr label /\
    _calculate_feature_importance float_of_str self
      (ModelLoader.get_model self "churn") X "churn" 10 = inr fi /\
    r = Churn.mkResult (py_int label) (py_round probability 4)
                       (risk_level_of probability)
                       (py_round (py_max probability (1 - probability)) 4)
                       fi (ModelLoader.model_version self) (clk 0%nat).
Proof.
  intros H.
  destruct (predict_churn_shape float_of_str self features_dict)
    as [(e & He) | (X & Xs & p & l & fi & H1 & H2 & H3 & H4 & H5 & Hr)].
  - rewrite He in H. discriminate.
  - rewrite Hr in H. injection H as <- _. exists X, Xs, p, l, fi. auto 10.
Qed.

Lemma predict_ltv_inr (float_of_str : string -> Exc Q) (self : ModelLoader.t)
      (features_dict : gmap string pyval) (clk clk' : Clock) (r : Ltv.Result) :
  predict_ltv float_of_str self features_dict clk = (inr r, clk') ->
  exists X X_scaled output fi,
    _prepare_features self features_dict "ltv" = inr X /\
    call_transform (ModelLoader.get_scaler self "ltv") X = inr X_scaled /\
    call_predict (ModelLoader.get_model self "ltv") X_scaled = inr output /\
    _calculate_feature_importance float_of_str self
      (ModelLoader.get_model self "ltv") X "ltv" 10 = inr fi /\
    r = Ltv.mkResult (py_round (py_max output 0) 2)
                     (ltv_category_of (py_max output 0))
                     fi (ModelLoader.model_version self) (clk 0%nat).
Proof.
  intros H.
  destruct (predict_ltv_shape float_of_str self features_dict)
    as [(e & He) | (X & Xs & o & fi & H1 & H2 & H3 & H4 & Hr)].
  - rewrite He in H. discriminate.
  - rewrite Hr in H. injection H as <- _. exists X, Xs, o, fi. auto 10.
Qed.

(** *** Categorisation *)

Local Open Scope Q_scope.

Lemma risk_level_of_spec (probability : Q) :
  (risk_level_of probability = "HIGH"%string <-> 7 # 10 <= probability) /\
  (risk_level_of probability = "MEDIUM"%string
   <-> 4 # 10 <= probability /\ probability < 7 # 10) /\
  (risk_level_of probability = "LOW"%string <-> probability < 4 # 10).
Proof.
  unfold risk_level_of.
  destruct (Qgeb probability (7 # 10)) eqn:E1;
    [| destruct (Qgeb probability (4 # 10)) eqn:E2];
    qprop; repeat split; intros; try discriminate; try lra.
Qed.

Lemma ltv_category_of_spec (value : Q) :
  0 <= value ->
  (ltv_category_of value = "HIGH"%string <-> 500 <= value) /\
  (ltv_category_of value = "MEDIUM"%string <-> 200 <= value /\ value < 500) /\
  (ltv_category_of value = "LOW"%string <-> 0 < value /\ value < 200) /\
  (ltv_category_of value = "ZERO"%string <-> value == 0).
Proof.
  intros Hnn. unfold ltv_category_of.
  destruct (Qgeb value 500) eqn:E1;
    [| destruct (Qgeb value 200) eqn:E2;
       [| destruct (Qgtb value 0) eqn:E3]];
    qprop; repeat split; intros; try discriminate; try lra.
Qed.

(** The boundary values named by the specification. *)
Example risk_level_boundaries :
  risk_level_of (7 # 10) = "HIGH"%string /\
  risk_level_of (4 # 10) = "MEDIUM"%string /\
  risk_level_of (399999 # 1000000) = "LOW"%string.
Proof. repeat split. Qed.

Example ltv_category_boundaries :
  ltv_category_of 500 = "HIGH"%string /\
  ltv_category_of 200 = "MEDIUM"%string /\
  ltv_category_of (1 # 100) = "LOW"%string /\
  ltv_category_of 0 = "ZERO"%string.
Proof. repeat split. Qed.






(** *** Repeated calls *)



(** *** Batches *)

Lemma batch_item_entry (float_of_str : string -> Exc Q) (self : ModelLoader.t)
      (user_features : gmap string pyval) (clk : Clock) :
  (batch_item float_of_str self user_features clk).1
  = match predict_churn float_of_str self user_features clk with
    | (inl e, _) => BatchError (get_user_id user_features) e
    | (inr churn, clk_j) =>
        match predict_ltv float_of_str self user_features clk_j with
        | (inl e, _) => BatchError (get_user_id user_features) e
        | (inr ltv, _) => BatchOk (get_user_id user_features) churn ltv
        end
    end.
Proof.
  unfold batch_item, bind_m, unit_m.
  destruct (predict_churn float_of_str self user_features clk) as [[e | c] clk1];
    [reflexivity |].
  destruct (predict_ltv float_of_str self user_features clk1) as [[e | l] clk2];
    reflexivity.
Qed.

(** Entries already collected are carried along unchanged. *)
Lemma batch_loop_acc (float_of_str : string -> Exc Q) (self : ModelLoader.t)
      (users_features : list (gmap string pyval)) :
  forall (results : list BatchEntry) (clk : Clock),
    batch_loop float_of_str self users_features results clk
    = ((results ++ (batch_loop float_of_str self users_features [] clk).1)%list,
       (batch_loop float_of_str self users_features [] clk).2).
Proof.
  induction users_features as [| u rest IH]; intros results clk; cbn [batch_loop].
  - cbn [fst snd]. rewrite app_nil_r. reflexivity.
  - destruct (batch_item float_of_str self u clk) as [entry clk1].
    rewrite (IH (results ++ [entry])%list), (IH ([] ++ [entry])%list).
    cbn [fst snd]. rewrite <- app_assoc. reflexivity.
Qed.

(** The entry of a record, with the clock it was computed at: the clock
    left by the batch of the records before it. *)
Lemma predict_batch_lookup (float_of_str : string -> Exc Q) (self : ModelLoader.t)
      (users_features : list (gmap string pyval)) :
  forall (i : nat) (user_features : gmap string pyval) (clk : Clock),
    users_features !! i = Some user_features ->
    (batch_loop float_of_str self users_features [] clk).1 !! i
    = Some (batch_item float_of_str self user_features
              (batch_loop float_of_str self (take i users_features) [] clk).2).1.
Proof.
  induction users_features as [| u rest IH]; intros i uf clk Hi; [discriminate |].
  cbn [batch_loop].
  destruct (batch_item float_of_str self u clk) as [entry clk1] eqn:E.
  rewrite batch_loop_acc. cbn [fst].
  destruct i as [| j].
  - injection Hi as <-. cbn [take firstn batch_loop snd]. rewrite E. reflexivity.
  - cbn [take firstn batch_loop]. rewrite E.
    rewrite (batch_loop_acc _ _ (take j rest)). cbn [snd].
    apply (IH j uf clk1 Hi).
Qed.

(** The loop keeps what it has collected and appends one entry per
    remaining record. *)
Lemma batch_loop_entries (float_of_str : string -> Exc Q) (self : ModelLoader.t)
      (users_features : list (gmap string pyval)) :
  forall (results : list BatchEntry) (clk : Clock),
    let out := (batch_loop float_of_str self users_features results clk).1 in
    length out = (length results + length users_features)%nat /\
    (forall i : nat, (i < length results)%nat -> out !! i = results !! i) /\
    (forall (i : nat) (user_features : gmap string pyval),
        users_features !! i = Some user_features ->
        exists clk_i,
          out !! (length results + i)%nat
          = Some (batch_item float_of_str self user_features clk_i).1).
Proof.
  induction users_features as [| u rest IH]; intros results clk; cbn zeta.
  - simpl. split; [lia |]. split; [reflexivity |]. intros i uf Hi. discriminate.
  - cbn [batch_loop].
    destruct (batch_item float_of_str self u clk) as [entry clk1] eqn:E.
    destruct (IH (results ++ [entry])%list clk1) as (Hlen & Hkeep & Hnew).
    rewrite length_app in Hlen, Hkeep, Hnew. cbn [length] in *.
    split; [lia |]. split.
    + intros i Hi. rewrite Hkeep by lia. apply lookup_app_l. exact Hi.
    + intros [| j] uf Hi.
      * injection Hi as <-. exists clk.
        rewrite Nat.add_0_r, Hkeep by lia.
        rewrite E. cbn [fst]. apply list_lookup_middle. reflexivity.
      * destruct (Hnew j uf Hi) as (clk_j & Hj). exists clk_j.
        rewrite <- Hj. f_equal. lia.
Qed.

(** C1: for every list of records, [predict_batch] returns a list of the
    same length whose entry at index [i] comes from record [i]: the churn
    prediction is run on it and then the LTV prediction, at the clock the
    records before it left behind; when either raises, the entry is an
    error marker holding the value stored under ['user_id'] in that record
    ([None] when the record has no such key) and the exception text;
    otherwise it holds that id and both results.  Every record gets its
    entry whatever happened to the records before it. *)
Theorem predict_batch_isolates_failures (float_of_str : string -> Exc Q)
        (self : ModelLoader.t) (users_features : list (gmap string pyval)) (clk : Clock) :
  let results := (predict_batch float_of_str self users_features clk).1 in
  length results = length users_features /\
  forall (i : nat) (user_features : gmap string pyval),
    users_features !! i = Some user_features ->
    let clk_i := (predict_batch float_of_str self (take i users_features) clk).2 in
    let user_id :=
      match user_features !! "user_id" with
      | Some v => v
      | None => PyNone
      end in
    results !! i
    = Some match predict_churn float_of_str self user_features clk_i with
           | (inl e, _) => BatchError user_id e
           | (inr churn, clk_j) =>
               match predict_ltv float_of_str self user_features clk_j with
               | (inl e, _) => BatchError user_id e
               | (inr ltv, _) => BatchOk user_id churn ltv
               end
           end.
Proof.
  intros results. subst results. unfold predict_batch.
  destruct (batch_loop_entries float_of_str self users_features [] clk)
    as (Hlen & _ & _).
  split; [exact Hlen |].
  intros i uf Hi. cbv zeta.
  rewrite (predict_batch_lookup float_of_str self users_features i uf clk Hi).
  rewrite batch_item_entry. unfold get_user_id.
  destruct (uf !! "user_id"); reflexivity.
Qed.

(** Witness of [predict_batch_isolates_failures]: in a batch of three
    whose second record cannot be scaled, index 1 holds the error marker
    with the id 2 of that record and the text of the scaler's exception. *)
Lemma predict_batch_isolates_failures_witness :
  length (predict_batch Demo.strict_float Demo.loader Demo.batch Demo.clock).1 = 3%nat /\
  (predict_batch Demo.strict_float Demo.loader Demo.batch Demo.clock).1 !! 1%nat
  = Some (BatchError (PyNum 2) "could not convert string to float").
Proof.
  pose proof (predict_batch_isolates_failures
                Demo.strict_float Demo.loader Demo.batch Demo.clock) as [Hlen H].
  split; [exact Hlen |].
  rewrite (H 1%nat (Demo.bad_user 2) eq_refl).
  vm_compute. reflexivity.
Defined.

(** The batch of the specification's isolation example, evaluated: results
    for users 1 and 3 and an error marker for user 2, in input order. *)
Example predict_batch_demo :
  exists c1 l1 c3 l3,
    (predict_batch Demo.strict_float Demo.loader Demo.batch Demo.clock).1
    = [BatchOk (PyNum 1) c1 l1;
       BatchError (PyNum 2) "could not convert string to float";
       BatchOk (PyNum 3) c3 l3].
Proof. do 4 eexists. vm_compute. reflexivity. Qed.

(** *** Feature importance *)

Lemma importance_entries_model_part (float_of_str : string -> Exc Q)
      (X1 X2 : DataFrame) (pairs : list (string * Q)) :
  forall (i : nat) (l1 l2 : list FeatureImportance),
    importance_entries float_of_str X1 i pairs = inr l1 ->
    importance_entries float_of_str X2 i pairs = inr l2 ->
    map model_part l1 = map model_part l2.
Proof.
  induction pairs as [| [name importance] rest IH]; intros i l1 l2 H1 H2; simpl in *.
  - injection H1 as <-. injection H2 as <-. reflexivity.
  - apply bind_inr in H1 as (c1 & _ & H1). apply bind_inr in H1 as (v1 & _ & H1).
    apply bind_inr in H1 as (t1 & Ht1 & H1). injection H1 as <-.
    apply bind_inr in H2 as (c2 & _ & H2). apply bind_inr in H2 as (v2 & _ & H2).
    apply bind_inr in H2 as (t2 & Ht2 & H2). injection H2 as <-.
    simpl. f_equal. eapply IH; eassumption.
Qed.

Lemma importance_entries_entry_at (float_of_str : string -> Exc Q) (X : DataFrame)
      (names : list string) (importances : list Q) :
  forall (pairs : list (string * Q)) (i : nat) (l : list FeatureImportance),
    (forall k p, pairs !! k = Some p ->
                 names !! (i + k)%nat = Some p.1 /\ importances !! (i + k)%nat = Some p.2) ->
    importance_entries float_of_str X i pairs = inr l ->
    Forall (fun e => exists j, entry_at float_of_str X names importances e j) l.
Proof.
  induction pairs as [| [name importance] rest IH]; intros i l Hp H; simpl in H.
  - injection H as <-. constructor.
  - apply bind_inr in H as (c & Hc & H). apply bind_inr in H as (v & Hv & H).
    apply bind_inr in H as (t & Ht & H). injection H as <-.
    constructor.
    + exists i. destruct (Hp 0%nat (name, importance) eq_refl) as [Hn Hi].
      rewrite Nat.add_0_r in Hn, Hi. unfold entry_at. simpl.
      split; [reflexivity |]. split; [exact Hn |]. split; [eauto |].
      unfold iloc0 in Hc. destruct (cells X !! i) as [cell |]; [| discriminate].
      injection Hc as ->. eauto.
    + apply (IH (S i)); [| exact Ht].
      intros k p Hk. specialize (Hp (S k) p Hk).
      replace (S i + k)%nat with (i + S k)%nat by lia. exact Hp.
Qed.

Lemma insert_desc_model_part (x1 x2 : FeatureImportance) :
  model_part x1 = model_part x2 ->
  forall s1 s2 : list FeatureImportance,
    map model_part s1 = map model_part s2 ->
    map model_part (insert_desc x1 s1) = map model_part (insert_desc x2 s2).
Proof.
  intros Hx. induction s1 as [| y1 s1 IH]; intros [| y2 s2] Hs;
    cbn [map insert_desc] in *; try discriminate.
  - congruence.
  - assert (Hy : model_part y1 = model_part y2) by congruence.
    assert (Hs' : map model_part s1 = map model_part s2) by congruence.
    assert (Ex : importance_score x1 = importance_score x2)
      by (change (snd (fst (model_part x1)) = snd (fst (model_part x2)));
          rewrite Hx; reflexivity).
    assert (Ey : importance_score y1 = importance_score y2)
      by (change (snd (fst (model_part y1)) = snd (fst (model_part y2)));
          rewrite Hy; reflexivity).
    rewrite Ex, Ey.
    destruct (Qltb (importance_score x2) (importance_score y2)); cbn [map].
    + rewrite Hy, (IH s2 Hs'). reflexivity.
    + rewrite Hx, Hy, Hs'. reflexivity.
Qed.

Lemma sort_desc_model_part (l1 l2 : list FeatureImportance) :
  map model_part l1 = map model_part l2 ->
  map model_part (sort_desc l1) = map model_part (sort_desc l2).
Proof.
  revert l2. induction l1 as [| x1 l1 IH]; intros [| x2 l2] H;
    cbn [map sort_desc foldr] in *; try discriminate; [reflexivity |].
  apply insert_desc_model_part; [congruence |]. apply IH. congruence.
Qed.

Lemma insert_desc_Forall (P : FeatureImportance -> Prop) (x : FeatureImportance)
      (l : list FeatureImportance) :
  P x -> Forall P l -> Forall P (insert_desc x l).
Proof.
  intros Hx Hl. induction Hl as [| y l Hy Hl IH]; simpl.
  - repeat constructor. exact Hx.
  - destruct (Qltb (importance_score x) (importance_score y)); repeat constructor; auto.
Qed.

Lemma sort_desc_Forall (P : FeatureImportance -> Prop) (l : list FeatureImportance) :
  Forall P l -> Forall P (sort_desc l).
Proof.
  induction 1 as [| x l Hx Hl IH]; simpl; [constructor |].
  apply insert_desc_Forall; assumption.
Qed.

Lemma insert_desc_length (x : FeatureImportance) (l : list FeatureImportance) :
  length (insert_desc x l) = S (length l).
Proof.
  induction l as [| y l IH]; simpl; [reflexivity |].
  destruct (Qltb (importance_score x) (importance_score y)); simpl; congruence.
Qed.

Lemma insert_desc_descending (x : FeatureImportance) (l : list FeatureImportance) :
  descending l -> descending (insert_desc x l).
Proof.
  unfold descending. induction 1 as [| y l Hl IH Hy]; simpl.
  - repeat constructor.
  - destruct (Qltb (importance_score x) (importance_score y)) eqn:E; qprop.
    + constructor; [exact IH |].
      apply (insert_desc_Forall (fun z => importance_score z <= importance_score y));
        [apply Qlt_le_weak, E | exact Hy].
    + constructor; [constructor; assumption |].
      constructor; [exact E |].
      eapply Forall_impl; [exact Hy |]. simpl.
      intros z Hz. eapply Qle_trans; eassumption.
Qed.

Lemma sort_desc_descending (l : list FeatureImportance) : descending (sort_desc l).
Proof.
  induction l as [| x l IH]; simpl; [constructor |].
  apply insert_desc_descending, IH.
Qed.

Lemma take_descending (n : nat) (l : list FeatureImportance) :
  descending l -> descending (take n l).
Proof.
  unfold descending. intros H. revert n.
  induction H as [| x l Hl IH Hx]; intros [| n]; simpl; try constructor.
  - apply IH.
  - rewrite <- (firstn_skipn n l) in Hx. apply Forall_app in Hx. tauto.
Qed.

Lemma importance_entries_length (float_of_str : string -> Exc Q) (X : DataFrame)
      (pairs : list (string * Q)) :
  forall (i : nat) (l : list FeatureImportance),
    importance_entries float_of_str X i pairs = inr l -> length l = length pairs.
Proof.
  induction pairs as [| [name importance] rest IH]; intros i l H; simpl in H.
  - injection H as <-. reflexivity.
  - apply bind_inr in H as (c & _ & H). apply bind_inr in H as (v & _ & H).
    apply bind_inr in H as (t & Ht & H). injection H as <-.
    simpl. f_equal. eapply IH, Ht.
Qed.

Lemma sort_desc_length (l : list FeatureImportance) : length (sort_desc l) = length l.
Proof.
  induction l as [| x l IH]; simpl; [reflexivity |].
  rewrite insert_desc_length. congruence.
Qed.

(** X15: What [_calculate_feature_importance] returns: nothing for a model
    without importances; otherwise at most [top_n] entries in descending
    order of score, each built from one index [j] of the feature-name list,
    with the name, the rounded importance and the cell at [j], and with
    [rank = j + 1]. *)
Lemma _calculate_feature_importance_returns (float_of_str : string -> Exc Q)
      (self : ModelLoader.t) (model : option artifact) (X : DataFrame)
      (model_type : string) (top_n : nat) (l : list FeatureImportance) :
  _calculate_feature_importance float_of_str self model X model_type top_n = inr l ->
  match getattr_feature_importances model with
  | None => l = []
  | Some importances =>
      exists names,
        ModelLoader.get_feature_names self model_type = Some (AFeatureNames names) /\
        descending l /\
        length l = Nat.min top_n (Nat.min (length names) (length importances)) /\
        Forall (fun e => exists j, entry_at float_of_str X names importances e j) l
  end.
Proof.
  unfold _calculate_feature_importance.
  destruct (getattr_feature_importances model) as [importances |];
    [| intros [= <-]; reflexivity].
  intros H. apply bind_inr in H as (names & Hnames & H).
  apply bind_inr in H as (entries & Hentries & H). injection H as <-.
  unfold iterate in Hnames.
  destruct (ModelLoader.get_feature_names self model_type) as [[m | sc | names'] |];
    try discriminate.
  injection Hnames as ->. exists names. split; [reflexivity |].
  split; [apply take_descending, sort_desc_descending |].
  split.
  - rewrite length_take, sort_desc_length.
    rewrite (importance_entries_length _ _ _ _ _ Hentries), length_zip. reflexivity.
  - apply Forall_take, sort_desc_Forall.
    eapply importance_entries_entry_at; [| exact Hentries].
    intros k [n q] Hk. simpl.
    apply lookup_zip_with_Some in Hk as (n' & q' & [= -> ->] & Hn & Hq). auto.
Qed.

(** C5 (evaluation at the failing input): for a model whose second feature
    is the more important one, the returned list is in descending order of
    score, but its first entry carries [rank = 2] and its second
    [rank = 1]: the rank is the 1-based index in the feature-name list, not
    the position in the sorted list. *)
Theorem feature_importance_rank_is_column_index :
  feature_importances_ Demo.churn_estimator = Some [1 # 10; 9 # 10] /\
  _calculate_feature_importance Demo.strict_float Demo.loader
    (ModelLoader.get_model Demo.loader "churn") Demo.frame_a "churn" 10
  = inr [mkImportance "days_since_last_run" 5 (9 # 10) 2;
         mkImportance "score" (1 # 2) (1 # 10) 1].
Proof. split; vm_compute; reflexivity. Qed.

Lemma _calculate_feature_importance_model_part (float_of_str : string -> Exc Q)
      (self : ModelLoader.t) (model : option artifact) (X1 X2 : DataFrame)
      (model_type : string) (top_n : nat) (l1 l2 : list FeatureImportance) :
  _calculate_feature_importance float_of_str self model X1 model_type top_n = inr l1 ->
  _calculate_feature_importance float_of_str self model X2 model_type top_n = inr l2 ->
  map model_part l1 = map model_part l2.
Proof.
  unfold _calculate_feature_importance.
  destruct (getattr_feature_importances model) as [importances |];
    [| intros [= <-] [= <-]; reflexivity].
  destruct (iterate (ModelLoader.get_feature_names self model_type)) as [e | names];
    [discriminate |]. simpl.
  intros H1 H2.
  apply bind_inr in H1 as (e1 & He1 & H1). injection H1 as <-.
  apply bind_inr in H2 as (e2 & He2 & H2). injection H2 as <-.
  rewrite <- !firstn_map. f_equal.
  apply sort_desc_model_part.
  eapply importance_entries_model_part; eassumption.
Qed.

(** C10: for a fixed loader, any two predictions that return, on any two
    feature dicts and at any two times, carry feature-importance lists with
    the same (feature_name, importance_score, rank) triples in the same
    order; only [feature_value] can differ.  This holds for [predict_churn]
    and for [predict_ltv]. *)
Theorem feature_importance_depends_only_on_model (float_of_str : string -> Exc Q)
        (self : ModelLoader.t) (features_1 features_2 : gmap string pyval)
        (clk1 clk2 : Clock) :
  (forall r1 r2 clk1' clk2',
      predict_churn float_of_str self features_1 clk1 = (inr r1, clk1') ->
      predict_churn float_of_str self features_2 clk2 = (inr r2, clk2') ->
      map model_part (Churn.feature_importance r1)
      = map model_part (Churn.feature_importance r2)) /\
  (forall r1 r2 clk1' clk2',
      predict_ltv float_of_str self features_1 clk1 = (inr r1, clk1') ->
      predict_ltv float_of_str self features_2 clk2 = (inr r2, clk2') ->
      map model_part (Ltv.feature_importance r1)
      = map model_part (Ltv.feature_importance r2)).
Proof.
  split; intros r1 r2 clk1' clk2' H1 H2.
  - apply predict_churn_inr in H1 as (X1 & ? & ? & ? & fi1 & _ & _ & _ & _ & F1 & ->).
    apply predict_churn_inr in H2 as (X2 & ? & ? & ? & fi2 & _ & _ & _ & _ & F2 & ->).
    simpl. eapply _calculate_feature_importance_model_part; eassumption.
  - apply predict_ltv_inr in H1 as (X1 & ? & ? & fi1 & _ & _ & _ & F1 & ->).
    apply predict_ltv_inr in H2 as (X2 & ? & ? & fi2 & _ & _ & _ & F2 & ->).
    simpl. eapply _calculate_feature_importance_model_part; eassumption.
Qed.

(** Witness of [feature_importance_depends_only_on_model]: two users with
    different scores, asked at different times. *)
Lemma feature_importance_depends_only_on_model_witness :
  exists r1 r2 clk1' clk2',
    predict_churn Demo.strict_float Demo.loader (Demo.user 1 (7 # 10) 500) Demo.clock
    = (inr r1, clk1') /\
    predict_churn Demo.strict_float Demo.loader (Demo.user 3 (4 # 10) 0) clk1'
    = (inr r2, clk2') /\
    Churn.feature_importance r1 <> Churn.feature_importance r2 /\
    map model_part (Churn.feature_importance r1)
    = map model_part (Churn.feature_importance r2).
Proof.
  pose (r1 := Churn.mkResult 1 (7 # 10) "HIGH" (7 # 10)
                [mkImportance "days_since_last_run" 5 (9 # 10) 2;
                 mkImportance "score" (7 # 10) (1 # 10) 1]
                "v1.0.0" "2024-01-01T00:00:00.000001").
  pose (r2 := Churn.mkResult 0 (2 # 5) "MEDIUM" (3 # 5)
                [mkImportance "days_since_last_run" 5 (9 # 10) 2;
                 mkImportance "score" (4 # 10) (1 # 10) 1]
                "v1.0.0" "2024-01-01T00:00:00.000002").
  pose (clk1' := fun n : nat => Demo.clock (S n)).
  pose (clk2' := fun n : nat => Demo.clock (S (S n))).
  assert (H1 : predict_churn Demo.strict_float Demo.loader
                             (Demo.user 1 (7 # 10) 500) Demo.clock
               = (inr r1, clk1')) by (vm_compute; reflexivity).
  assert (H2 : predict_churn Demo.strict_float Demo.loader
                             (Demo.user 3 (4 # 10) 0) clk1'
               = (inr r2, clk2')) by (vm_compute; reflexivity).
  exists r1, r2, clk1', clk2'.
  split; [exact H1 |]. split; [exact H2 |].
  split; [intros H; discriminate H |].
  exact (proj1 (feature_importance_depends_only_on_model
                  Demo.strict_float Demo.loader
                  (Demo.user 1 (7 # 10) 500) (Demo.user 3 (4 # 10) 0)
                  Demo.clock clk1')
               r1 r2 clk1' clk2' H1 H2).
Defined.

End PredictionEngineSpec.

(* ===================================================================== *)
(** ** Further properties of the feature derivation *)
(* ===================================================================== *)

Module FeatureEngineerProps.

Import FeatureEngineer PyFacts RoundFacts FeatureEngineerSpec.
Local Open Scope Q_scope.

Lemma zip_rows_rows (df : list RawRecord) :
  forall als pcs : list Z,
    map activity_level_cut df = map Some als ->
    map pace_category_cut df = map Some pcs ->
    map raw (zip_rows df als pcs) = df /\
    Forall (fun d => activity_level_cut (raw d) = Some (activity_level d) /\
                     pace_category_cut (raw d) = Some (pace_category d) /\
                     d = derive_row (raw d) (activity_level d) (pace_category d))
           (zip_rows df als pcs).
Proof.
  induction df as [| r df IH]; intros [| al als] [| pc pcs] Ha Hp; simpl in *;
    try discriminate; [split; [reflexivity | constructor] |].
  injection Ha as Ha Has. injection Hp as Hp Hps.
  destruct (IH als pcs Has Hps) as [Hraw Hall].
  split; [rewrite Hraw; reflexivity |].
  constructor; [| exact Hall]. simpl. auto.
Qed.

(** Every returned row is built from its own input row, with the two
    categories that [pd.cut] found for it. *)
Lemma calculate_all_features_rows (df : list RawRecord) (out : list DerivedRow) :
  calculate_all_features df = inr out ->
  map raw out = df /\
  Forall (fun d => activity_level_cut (raw d) = Some (activity_level d) /\
                   pace_category_cut (raw d) = Some (pace_category d) /\
                   d = derive_row (raw d) (activity_level d) (pace_category d)) out.
Proof.
  unfold calculate_all_features. intros H.
  apply bind_inr in H as (als & Hals & H).
  apply bind_inr in H as (pcs & Hpcs & H). injection H as <-.
  apply zip_rows_rows; apply astype_int_inr; assumption.
Qed.

Lemma calculate_all_features_row (df : list RawRecord) (out : list DerivedRow)
      (d : DerivedRow) :
  calculate_all_features df = inr out -> In d out ->
  In (raw d) df /\
  activity_level_cut (raw d) = Some (activity_level d) /\
  pace_category_cut (raw d) = Some (pace_category d) /\
  d = derive_row (raw d) (activity_level d) (pace_category d).
Proof.
  intros H Hd. destruct (calculate_all_features_rows df out H) as [Hraw Hall].
  split; [rewrite <- Hraw; apply in_map, Hd |].
  rewrite Forall_forall in Hall. apply Hall, list_elem_of_In, Hd.
Qed.

(** X1: The frame keeps its rows: the derivation returns one row per input
    row, in the input order, each carrying its input columns unchanged. *)
Theorem calculate_all_features_keeps_rows (df : list RawRecord) (out : list DerivedRow) :
  calculate_all_features df = inr out ->
  length out = length df /\ map raw out = df.
Proof.
  intros H. destruct (calculate_all_features_rows df out H) as [Hraw _].
  split; [| exact Hraw].
  rewrite <- (length_map raw out), Hraw. reflexivity.
Qed.

Lemma calculate_all_features_keeps_rows_witness :
  exists out,
    calculate_all_features (take 2 sample_data) = inr out /\
    map raw out = take 2 sample_data.
Proof.
  destruct (calculate_all_features_positive_pace (take 2 sample_data)) as (out & Hout & _).
  { intros r Hr. simpl in Hr. destruct Hr as [<- | [<- | []]]; split; reflexivity. }
  exists out. split; [exact Hout |].
  exact (proj2 (calculate_all_features_keeps_rows _ _ Hout)).
Defined.

Lemma astype_int_raises (col : list (option Z)) :
  In None col -> exists e, astype_int col = inl e.
Proof.
  intros H. destruct (astype_int col) as [e | zs] eqn:E; [eauto |].
  apply astype_int_inr in E. rewrite E in H.
  apply in_map_iff in H as (z & Hz & _). discriminate.
Qed.

(** X2: The derivation raises exactly on the frames that hold a row with a
    session count of at most [-1] or a pace of at most 0, and then always
    with pandas' "Cannot convert float NaN to integer". *)
Theorem calculate_all_features_raises_iff (df : list RawRecord) :
  ((exists e, calculate_all_features df = inl e) <->
   (exists r, In r df /\
              (running_sessions_count r <= -1 \/ avg_pace_min_per_km r <= 0))) /\
  (forall e, calculate_all_features df = inl e ->
             e = "Cannot convert float NaN to integer"%string).
Proof.
  split; [split |].
  - intros (e & H). unfold calculate_all_features in H.
    apply bind_inl in H as [H | (als & _ & H)].
    + apply astype_int_inl in H as [_ H].
      apply in_map_iff in H as (r & Hr & Hin).
      exists r. split; [exact Hin |]. left. apply activity_level_cut_none, Hr.
    + apply bind_inl in H as [H | (pcs & _ & H)]; [| discriminate].
      apply astype_int_inl in H as [_ H].
      apply in_map_iff in H as (r & Hr & Hin).
      exists r. split; [exact Hin |]. right. apply pace_category_cut_none, Hr.
  - intros (r & Hin & [Hs | Hp]).
    + unfold calculate_all_features.
      destruct (astype_int_raises (map activity_level_cut df)) as (e & ->).
      { apply in_map_iff. exists r. split; [| exact Hin].
        apply activity_level_cut_none, Hs. }
      simpl. eauto.
    + apply (calculate_all_features_pace_raises df r Hin Hp).
  - intros e H. unfold calculate_all_features in H.
    apply bind_inl in H as [H | (als & _ & H)].
    + apply astype_int_inl in H. tauto.
    + apply bind_inl in H as [H | (pcs & _ & H)]; [| discriminate].
      apply astype_int_inl in H. tauto.
Qed.

Lemma activity_level_cut_bins (r : RawRecord) (al : Z) :
  activity_level_cut r = Some al ->
  -1 < running_sessions_count r /\
  (al = 0%Z <-> running_sessions_count r <= 0) /\
  (al = 1%Z <-> 0 < running_sessions_count r /\ running_sessions_count r <= 5) /\
  (al = 2%Z <-> 5 < running_sessions_count r /\ running_sessions_count r <= 20) /\
  (al = 3%Z <-> 20 < running_sessions_count r /\ running_sessions_count r <= 50) /\
  (al = 4%Z <-> 50 < running_sessions_count r).
Proof.
  unfold activity_level_cut. simpl.
  repeat match goal with
  | |- context [Qle_bool ?a ?b] => destruct (Qle_bool a b) eqn:?; simpl
  | |- context [Qltb ?a ?b] => destruct (Qltb a b) eqn:?; simpl
  end; intros [= <-] || discriminate; qprop;
  repeat split; intros; try discriminate; try lra.
Qed.

Lemma pace_category_cut_bins (r : RawRecord) (pc : Z) :
  pace_category_cut r = Some pc ->
  0 < avg_pace_min_per_km r /\
  (pc = 4%Z <-> avg_pace_min_per_km r <= 5) /\
  (pc = 3%Z <-> 5 < avg_pace_min_per_km r /\ avg_pace_min_per_km r <= 6) /\
  (pc = 2%Z <-> 6 < avg_pace_min_per_km r /\ avg_pace_min_per_km r <= 7) /\
  (pc = 1%Z <-> 7 < avg_pace_min_per_km r /\ avg_pace_min_per_km r <= 8) /\
  (pc = 0%Z <-> 8 < avg_pace_min_per_km r).
Proof.
  unfold pace_category_cut. simpl.
  repeat match goal with
  | |- context [Qle_bool ?a ?b] => destruct (Qle_bool a b) eqn:?; simpl
  | |- context [Qltb ?a ?b] => destruct (Qltb a b) eqn:?; simpl
  end; intros [= <-] || discriminate; qprop;
  repeat split; intros; try discriminate; try lra.
Qed.

Lemma activity_level_cut_cases (r : RawRecord) (al : Z) :
  activity_level_cut r = Some al ->
  (al = 0%Z /\ running_sessions_count r <= 0) \/
  (al = 1%Z /\ 0 < running_sessions_count r <= 5) \/
  (al = 2%Z /\ 5 < running_sessions_count r <= 20) \/
  (al = 3%Z /\ 20 < running_sessions_count r <= 50) \/
  (al = 4%Z /\ 50 < running_sessions_count r).
Proof.
  unfold activity_level_cut. simpl.
  repeat match goal with
  | |- context [Qle_bool ?a ?b] => destruct (Qle_bool a b) eqn:?; simpl
  | |- context [Qltb ?a ?b] => destruct (Qltb a b) eqn:?; simpl
  end; intros [= <-] || discriminate; qprop; intuition lra.
Qed.

Lemma pace_category_cut_cases (r : RawRecord) (pc : Z) :
  pace_category_cut r = Some pc ->
  (pc = 4%Z /\ avg_pace_min_per_km r <= 5) \/
  (pc = 3%Z /\ 5 < avg_pace_min_per_km r <= 6) \/
  (pc = 2%Z /\ 6 < avg_pace_min_per_km r <= 7) \/
  (pc = 1%Z /\ 7 < avg_pace_min_per_km r <= 8) \/
  (pc = 0%Z /\ 8 < avg_pace_min_per_km r).
Proof.
  unfold pace_category_cut. simpl.
  repeat match goal with
  | |- context [Qle_bool ?a ?b] => destruct (Qle_bool a b) eqn:?; simpl
  | |- context [Qltb ?a ?b] => destruct (Qltb a b) eqn:?; simpl
  end; intros [= <-] || discriminate; qprop; intuition lra.
Qed.

Lemma py_round_unit (x : Q) (n : nat) (hi : Z) :
  0 <= x -> x * inject_Z (pow10 n) <= inject_Z hi ->
  0 <= py_round x n * inject_Z (pow10 n) /\
  py_round x n * inject_Z (pow10 n) <= inject_Z hi.
Proof.
  intros H0 Hhi. apply (py_round_range x n 0 hi); [| exact Hhi].
  pose proof (pow10_pos n). change (inject_Z 0) with 0. nra.
Qed.

(** X3: The derived columns stay in their ranges on every frame, whatever the
    input numbers: the inactivity ratio and the consistency score in
    [0, 1], the monthly activity rate in [0, 50], the distance trend in
    [-1, 1], the premium flag in {0, 1} and both categories in 0..4. *)
Theorem derived_columns_in_range (df : list RawRecord) (out : list DerivedRow) :
  calculate_all_features df = inr out ->
  Forall (fun d =>
            (0 <= days_inactive_ratio d /\ days_inactive_ratio d <= 1) /\
            (0 <= consistency_score d /\ consistency_score d <= 1) /\
            (0 <= monthly_activity_rate d /\ monthly_activity_rate d <= 50) /\
            (-1 <= distance_trend d /\ distance_trend d <= 1) /\
            (is_premium d = 0 \/ is_premium d = 1)%Z /\
            (0 <= activity_level d <= 4)%Z /\
            (0 <= pace_category d <= 4)%Z) out.
Proof.
  intros H. apply Forall_forall. intros d Hd. apply list_elem_of_In in Hd.
  destruct (calculate_all_features_row df out d H Hd) as (_ & Hal & Hpc & Heq).
  rewrite Heq. cbn [days_inactive_ratio consistency_score monthly_activity_rate
                    distance_trend is_premium activity_level pace_category derive_row].
  split; [apply clip_range; lra |].
  split.
  { unfold _calculate_consistency_score.
    set (c := clip _ 0 1).
    destruct (clip_range (if Qgtb (runs_last_90_days (raw d) / 3) 0
                          then 1 - Qabs (runs_last_30_days (raw d) - runs_last_90_days (raw d) / 3)
                                   / (runs_last_90_days (raw d) / 3)
                          else 0) 0 1) as [Hc0 Hc1]; [lra |].
    fold c in Hc0, Hc1.
    destruct (py_round_unit c 4 10000) as [H0 H1]; [exact Hc0 | |].
    - change (inject_Z (pow10 4)) with (10000 # 1).
      change (inject_Z 10000) with (10000 # 1). lra.
    - change (inject_Z (pow10 4)) with (10000 # 1) in H0, H1.
      change (inject_Z 10000) with (10000 # 1) in H1. lra. }
  split; [apply clip_range; lra |].
  split; [apply clip_range; lra |].
  split; [unfold calc_is_premium; destruct (Qgtb _ _); auto |].
  apply activity_level_cut_bins in Hal. apply pace_category_cut_bins in Hpc.
  destruct Hal as (_ & A0 & A1 & A2 & A3 & A4).
  destruct Hpc as (_ & P4 & P3 & P2 & P1 & P0).
  split.
  - destruct (Qlt_le_dec 50 (running_sessions_count (raw d)));
      [rewrite <- A4 in *; lia |].
    destruct (Qlt_le_dec 20 (running_sessions_count (raw d)));
      [assert (activity_level d = 3%Z) by tauto; lia |].
    destruct (Qlt_le_dec 5 (running_sessions_count (raw d)));
      [assert (activity_level d = 2%Z) by tauto; lia |].
    destruct (Qlt_le_dec 0 (running_sessions_count (raw d)));
      [assert (activity_level d = 1%Z) by tauto; lia |].
    assert (activity_level d = 0%Z) by tauto; lia.
  - destruct (Qlt_le_dec 8 (avg_pace_min_per_km (raw d)));
      [assert (pace_category d = 0%Z) by tauto; lia |].
    destruct (Qlt_le_dec 7 (avg_pace_min_per_km (raw d)));
      [assert (pace_category d = 1%Z) by tauto; lia |].
    destruct (Qlt_le_dec 6 (avg_pace_min_per_km (raw d)));
      [assert (pace_category d = 2%Z) by tauto; lia |].
    destruct (Qlt_le_dec 5 (avg_pace_min_per_km (raw d)));
      [assert (pace_category d = 3%Z) by tauto; lia |].
    assert (pace_category d = 4%Z) by tauto; lia.
Qed.

Lemma derived_columns_in_range_witness :
  exists out,
    calculate_all_features (take 2 sample_data) = inr out /\
    Forall (fun d => 0 <= consistency_score d /\ consistency_score d <= 1) out.
Proof.
  destruct (calculate_all_features_positive_pace (take 2 sample_data)) as (out & Hout & _).
  { intros r Hr. simpl in Hr. destruct Hr as [<- | [<- | []]]; split; reflexivity. }
  exists out. split; [exact Hout |].
  eapply Forall_impl; [apply (derived_columns_in_range _ _ Hout) |].
  simpl. tauto.
Defined.

(** X4: The engagement score is a score out of 100, as its docstring says,
    for every row whose biometrics flag is between 0 and 1. *)
Theorem engagement_score_in_range (df : list RawRecord) (out : list DerivedRow)
        (d : DerivedRow) :
  calculate_all_features df = inr out -> In d out ->
  0 <= has_biometrics (raw d) -> has_biometrics (raw d) <= 1 ->
  0 <= engagement_score d /\ engagement_score d <= 100.
Proof.
  intros H Hd Hb0 Hb1.
  destruct (calculate_all_features_row df out d H Hd) as (_ & _ & _ & Heq).
  rewrite Heq. cbn [engagement_score derive_row].
  unfold _calculate_engagement_score.
  destruct (clip_range (runs_last_90_days (raw d) / 30) 0 1) as [A0 A1]; [lra |].
  destruct (clip_range (distance_last_90_days_km (raw d) / 500) 0 1) as [B0 B1]; [lra |].
  destruct (clip_range (achievement_count (raw d) / 20) 0 1) as [C0 C1]; [lra |].
  destruct (clip_range (race_participation_count (raw d) / 10) 0 1) as [E0 E1]; [lra |].
  set (a := clip (runs_last_90_days (raw d) / 30) 0 1) in *.
  set (b := clip (distance_last_90_days_km (raw d) / 500) 0 1) in *.
  set (c := clip (achievement_count (raw d) / 20) 0 1) in *.
  set (e := clip (race_participation_count (raw d) / 10) 0 1) in *.
  set (h := has_biometrics (raw d)) in *.
  set (score := (a * (35 # 100) + b * (25 # 100) + c * (20 # 100) + h * (10 # 100)
                 + e * (10 # 100)) * 100).
  assert (S0 : 0 <= score) by (unfold score; lra).
  assert (S1 : score <= 100) by (unfold score; lra).
  destruct (py_round_unit score 2 10000) as [H0 H1]; [exact S0 | |].
  - change (inject_Z (pow10 2)) with (100 # 1).
    change (inject_Z 10000) with (10000 # 1). lra.
  - change (inject_Z (pow10 2)) with (100 # 1) in H0, H1.
    change (inject_Z 10000) with (10000 # 1) in H1. lra.
Qed.

Lemma engagement_score_in_range_witness :
  exists out d,
    calculate_all_features (take 1 sample_data) = inr out /\ In d out /\
    0 <= engagement_score d /\ engagement_score d <= 100.
Proof.
  destruct (calculate_all_features_positive_pace (take 1 sample_data)) as (out & Hout & Hlen).
  { intros r Hr. simpl in Hr. destruct Hr as [<- | []]; split; reflexivity. }
  destruct out as [| d out]; [discriminate Hlen |].
  exists (d :: out), d.
  assert (Hd : In d (d :: out)) by (left; reflexivity).
  split; [exact Hout |]. split; [exact Hd |].
  destruct (calculate_all_features_rows _ _ Hout) as [Hraw _].
  injection Hraw as Hraw _.
  apply (engagement_score_in_range _ _ d Hout Hd); rewrite Hraw; vm_compute; discriminate.
Defined.

(** X5: The two categories of a returned row, bin by bin: the activity level
    is 0 for no sessions, 1 up to 5, 2 up to 20, 3 up to 50 and 4 above;
    the pace category is 4 up to 5 min/km, 3 up to 6, 2 up to 7, 1 up to 8
    and 0 above.  Every upper edge belongs to its bin. *)
Theorem category_bins (df : list RawRecord) (out : list DerivedRow) (d : DerivedRow) :
  calculate_all_features df = inr out -> In d out ->
  let sessions := running_sessions_count (raw d) in
  let pace := avg_pace_min_per_km (raw d) in
  (-1 < sessions /\ 0 < pace) /\
  ((activity_level d = 0%Z <-> sessions <= 0) /\
   (activity_level d = 1%Z <-> 0 < sessions /\ sessions <= 5) /\
   (activity_level d = 2%Z <-> 5 < sessions /\ sessions <= 20) /\
   (activity_level d = 3%Z <-> 20 < sessions /\ sessions <= 50) /\
   (activity_level d = 4%Z <-> 50 < sessions)) /\
  ((pace_category d = 4%Z <-> pace <= 5) /\
   (pace_category d = 3%Z <-> 5 < pace /\ pace <= 6) /\
   (pace_category d = 2%Z <-> 6 < pace /\ pace <= 7) /\
   (pace_category d = 1%Z <-> 7 < pace /\ pace <= 8) /\
   (pace_category d = 0%Z <-> 8 < pace)).
Proof.
  intros H Hd sessions pace.
  destruct (calculate_all_features_row df out d H Hd) as (_ & Hal & Hpc & _).
  apply activity_level_cut_bins in Hal. apply pace_category_cut_bins in Hpc.
  subst sessions pace. tauto.
Qed.

Lemma category_bins_witness :
  exists out d,
    calculate_all_features (take 1 sample_data) = inr out /\ In d out /\
    (activity_level d = 3%Z <->
     20 < running_sessions_count (raw d) /\ running_sessions_count (raw d) <= 50).
Proof.
  destruct (calculate_all_features_positive_pace (take 1 sample_data)) as (out & Hout & Hlen).
  { intros r Hr. simpl in Hr. destruct Hr as [<- | []]; split; reflexivity. }
  destruct out as [| d out]; [discriminate Hlen |].
  exists (d :: out), d.
  assert (Hd : In d (d :: out)) by (left; reflexivity).
  split; [exact Hout |]. split; [exact Hd |].
  apply (category_bins _ _ d Hout Hd).
Defined.

(** X6: More sessions never lower the activity level and a slower pace never
    raises the pace category, across any two returned rows. *)
Theorem categories_monotone (df1 df2 : list RawRecord) (out1 out2 : list DerivedRow)
        (d1 d2 : DerivedRow) :
  calculate_all_features df1 = inr out1 -> In d1 out1 ->
  calculate_all_features df2 = inr out2 -> In d2 out2 ->
  (running_sessions_count (raw d1) <= running_sessions_count (raw d2) ->
   (activity_level d1 <= activity_level d2)%Z) /\
  (avg_pace_min_per_km (raw d1) <= avg_pace_min_per_km (raw d2) ->
   (pace_category d2 <= pace_category d1)%Z).
Proof.
  intros H1 Hd1 H2 Hd2.
  destruct (calculate_all_features_row df1 out1 d1 H1 Hd1) as (_ & Hal1 & Hpc1 & _).
  destruct (calculate_all_features_row df2 out2 d2 H2 Hd2) as (_ & Hal2 & Hpc2 & _).
  apply activity_level_cut_cases in Hal1, Hal2.
  apply pace_category_cut_cases in Hpc1, Hpc2.
  split; intros Hle.
  - destruct Hal1 as [[-> ?] | [[-> ?] | [[-> ?] | [[-> ?] | [-> ?]]]]];
      destruct Hal2 as [[-> ?] | [[-> ?] | [[-> ?] | [[-> ?] | [-> ?]]]]];
      try lia; lra.
  - destruct Hpc1 as [[-> ?] | [[-> ?] | [[-> ?] | [[-> ?] | [-> ?]]]]];
      destruct Hpc2 as [[-> ?] | [[-> ?] | [[-> ?] | [[-> ?] | [-> ?]]]]];
      try lia; lra.
Qed.

(** Witness of [categories_monotone]: the second user of the self-test
    has fewer sessions than the first. *)
Lemma categories_monotone_witness :
  exists out d1 d2,
    calculate_all_features (take 2 sample_data) = inr out /\
    out = [d1; d2] /\
    (activity_level d2 <= activity_level d1)%Z.
Proof.
  destruct (calculate_all_features_positive_pace (take 2 sample_data)) as (out & Hout & Hlen).
  { intros r Hr. simpl in Hr. destruct Hr as [<- | [<- | []]]; split; reflexivity. }
  destruct out as [| d1 [| d2 [| d3 out]]]; try discriminate Hlen.
  exists [d1; d2], d1, d2. split; [exact Hout |]. split; [reflexivity |].
  destruct (calculate_all_features_rows _ _ Hout) as [Hraw _].
  injection Hraw as H1 H2.
  refine (proj1 (categories_monotone _ _ _ _ d2 d1 Hout _ Hout _) _).
  - right. left. reflexivity.
  - left. reflexivity.
  - rewrite H1, H2. vm_compute. discriminate.
Defined.

(** X7: Rows without recent activity, and rows with a steady rhythm: with no
    run in the last 90 days the consistency score is 0, with no distance
    in the last 90 days the distance trend is 0 (neither divides by the
    empty 90-day average), and a user whose 30-day runs equal a third of
    the 90-day runs gets a consistency score of exactly 1. *)
Theorem consistency_and_trend_edges (df : list RawRecord) (out : list DerivedRow)
        (d : DerivedRow) :
  calculate_all_features df = inr out -> In d out ->
  (runs_last_90_days (raw d) <= 0 -> consistency_score d = 0) /\
  (distance_last_90_days_km (raw d) <= 0 -> distance_trend d = 0) /\
  (0 < runs_last_90_days (raw d) ->
   runs_last_30_days (raw d) == runs_last_90_days (raw d) / 3 ->
   consistency_score d = 1).
Proof.
  intros H Hd.
  destruct (calculate_all_features_row df out d H Hd) as (_ & _ & _ & Heq).
  rewrite Heq. cbn [consistency_score distance_trend derive_row raw].
  unfold _calculate_consistency_score, calc_distance_trend.
  split; [| split].
  - intros H90.
    destruct (Qgtb (runs_last_90_days (raw d) / 3) 0) eqn:E; [exfalso; qprop; qlra |].
    reflexivity.
  - intros H90.
    destruct (Qgtb (distance_last_90_days_km (raw d) / 3) 0) eqn:E; [exfalso; qprop; qlra |].
    reflexivity.
  - intros H90 Hsteady.
    destruct (Qgtb (runs_last_90_days (raw d) / 3) 0) eqn:E; [| exfalso; qprop; qlra].
    set (avg := runs_last_90_days (raw d) / 3) in *.
    assert (Hv : 1 - Qabs (runs_last_30_days (raw d) - avg) / avg == 1).
    { assert (Hz : runs_last_30_days (raw d) - avg == 0) by (rewrite Hsteady; ring).
      rewrite Hz. change (Qabs 0) with 0. unfold Qdiv. ring. }
    set (v := 1 - Qabs (runs_last_30_days (raw d) - avg) / avg) in *.
    rewrite (clip_inside v 0 1) by lra.
    rewrite (py_round_comp v 1 4 Hv). reflexivity.
Qed.

Lemma consistency_and_trend_edges_witness :
  exists out d,
    calculate_all_features (take 1 sample_data) = inr out /\ In d out /\
    consistency_score d = 1.
Proof.
  destruct (calculate_all_features_positive_pace (take 1 sample_data)) as (out & Hout & Hlen).
  { intros r Hr. simpl in Hr. destruct Hr as [<- | []]; split; reflexivity. }
  destruct out as [| d out]; [discriminate Hlen |].
  exists (d :: out), d.
  assert (Hd : In d (d :: out)) by (left; reflexivity).
  split; [exact Hout |]. split; [exact Hd |].
  destruct (calculate_all_features_rows _ _ Hout) as [Hraw _].
  injection Hraw as Hraw _.
  apply (consistency_and_trend_edges _ _ d Hout Hd); rewrite Hraw; vm_compute; reflexivity.
Defined.

End FeatureEngineerProps.

(* ===================================================================== *)
(** ** Further properties of the artifact loader *)
(* ===================================================================== *)

Module ModelLoaderProps.

Import ModelLoader Spec Vocab PyFacts ModelLoaderSpec.

(** X8: A start-up that found every file: [load_all_models] on a fresh loader
    returns [True] exactly when each of the six files exists and can be
    unpickled, and then every getter hands out the object read from its
    file. *)
Theorem load_all_models_success (fs : FileSystem) (dir ver : string) :
  let self := init dir ver in
  let self' := (load_all_models fs self).2 in
  ((load_all_models fs self).1 = true <->
   Forall (fun n => exists a, _load_model fs self n = inr a) artifact_names) /\
  ((load_all_models fs self).1 = true ->
   get_model self' "churn" = loads fs self "churn_model" /\
   get_scaler self' "churn" = loads fs self "churn_scaler" /\
   get_feature_names self' "churn" = loads fs self "churn_features" /\
   get_model self' "ltv" = loads fs self "ltv_model" /\
   get_scaler self' "ltv" = loads fs self "ltv_scaler" /\
   get_feature_names self' "ltv" = loads fs self "ltv_features").
Proof.
  intros self self'.
  destruct (load_all_models_fresh fs dir ver) as (Hok & H1 & H2 & H3 & H4 & H5 & H6).
  fold self in Hok, H1, H2, H3, H4, H5, H6. fold self' in H1, H2, H3, H4, H5, H6.
  assert (Hall : Forall (fun n => is_Some (loads fs self n)) artifact_names <->
                 Forall (fun n => exists a, _load_model fs self n = inr a) artifact_names).
  { apply Forall_iff. intros n. unfold loads.
    destruct (_load_model fs self n) as [e | a]; split.
    - intros [? [=]].
    - intros [? [=]].
    - eauto.
    - intros _. eexists. reflexivity. }
  split; [rewrite Hok; exact Hall |].
  intros Htrue. apply Hok in Htrue.
  unfold artifact_names in Htrue. rewrite !Forall_cons in Htrue.
  destruct Htrue as (L1 & L2 & L3 & L4 & L5 & L6 & _).
  rewrite H1, H2, H3, H4, H5, H6. unfold after. cbn [forallb].
  rewrite !bool_decide_eq_true_2 by assumption.
  repeat split; reflexivity.
Qed.

Lemma load_all_models_success_witness :
  get_model Demo.loader "ltv" = loads Demo.all_files Demo.fresh "ltv_model".
Proof.
  destruct (load_all_models_success Demo.all_files "models" "v1.0.0") as [_ H].
  destruct H as (_ & _ & _ & H & _); [vm_compute; reflexivity |].
  exact H.
Defined.

Lemma keeps_refl (m : gmap string artifact) : keeps m m.
Proof. intros k. split; auto. Qed.

Lemma keeps_trans (m1 m2 m3 : gmap string artifact) :
  keeps m1 m2 -> keeps m2 m3 -> keeps m1 m3.
Proof.
  intros H12 H23 k. destruct (H12 k) as [A1 B1]. destruct (H23 k) as [A2 B2].
  split; [auto |]. intros Hc Hl. rewrite B2, B1 by assumption. reflexivity.
Qed.

Lemma keeps_insert (m : gmap string artifact) (key : string) (a : artifact) :
  key = "churn"%string \/ key = "ltv"%string -> keeps m (<[key := a]> m).
Proof.
  intros Hkey k. split.
  - intros Hk. destruct (decide (key = k)) as [-> | Hne].
    + rewrite lookup_insert_eq. eauto.
    + rewrite lookup_insert_ne by exact Hne. exact Hk.
  - intros Hc Hl. apply lookup_insert_ne. destruct Hkey; congruence.
Qed.

Lemma extends_refl (self : t) : extends self self.
Proof. repeat split; try apply keeps_refl; try intros k; auto. Qed.

Lemma extends_trans (s1 s2 s3 : t) : extends s1 s2 -> extends s2 s3 -> extends s1 s3.
Proof.
  intros (D1 & V1 & M1 & S1 & F1) (D2 & V2 & M2 & S2 & F2).
  split; [congruence |]. split; [congruence |].
  split; [eapply keeps_trans; eassumption |].
  split; eapply keeps_trans; eassumption.
Qed.

Lemma assign_extends (set : string -> artifact -> t -> t) (fs : FileSystem)
      (key name : string) (self : t) :
  (forall a, extends self (set key a self)) ->
  extends self (assign set fs key name self).2.
Proof.
  intros Hset. unfold assign.
  destruct (_load_model fs self name) as [e | a]; simpl; [apply extends_refl | apply Hset].
Qed.

Lemma seq_extends (s1 s2 : Stmt) (self : t) :
  extends self (s1 self).2 ->
  (forall self', extends self' (s2 self').2) ->
  extends self (seq s1 s2 self).2.
Proof.
  intros H1 H2. unfold seq. destruct (s1 self) as [[e | u] self']; simpl in *;
    [exact H1 |].
  eapply extends_trans; [exact H1 | apply H2].
Qed.

Lemma set_model_extends (key : string) (a : artifact) (self : t) :
  key = "churn"%string \/ key = "ltv"%string -> extends self (set_model key a self).
Proof.
  intros Hk. repeat split; try apply keeps_refl; simpl; try (intros; reflexivity).
  - apply (keeps_insert _ _ _ Hk).
  - apply (keeps_insert _ _ _ Hk).
Qed.

Lemma set_scaler_extends (key : string) (a : artifact) (self : t) :
  key = "churn"%string \/ key = "ltv"%string -> extends self (set_scaler key a self).
Proof.
  intros Hk. repeat split; try apply keeps_refl; simpl; try (intros; reflexivity).
  - apply (keeps_insert _ _ _ Hk).
  - apply (keeps_insert _ _ _ Hk).
Qed.

Lemma set_feature_names_extends (key : string) (a : artifact) (self : t) :
  key = "churn"%string \/ key = "ltv"%string ->
  extends self (set_feature_names key a self).
Proof.
  intros Hk. repeat split; try apply keeps_refl; simpl; try (intros; reflexivity).
  - apply (keeps_insert _ _ _ Hk).
  - apply (keeps_insert _ _ _ Hk).
Qed.

(** X9: [load_all_models] only ever adds: on any loader, whether it returns
    [True] or [False], it leaves [models_dir] and [model_version] alone,
    never removes an artifact a getter could find before the call, and
    touches no key other than ['churn'] and ['ltv'].  A reload that fails
    therefore keeps serving what an earlier load put there. *)
Theorem load_all_models_only_adds (fs : FileSystem) (self : t) :
  let self' := (load_all_models fs self).2 in
  models_dir self' = models_dir self /\
  model_version self' = model_version self /\
  forall model_type : string,
    (is_Some (get_model self model_type) -> is_Some (get_model self' model_type)) /\
    (is_Some (get_scaler self model_type) -> is_Some (get_scaler self' model_type)) /\
    (is_Some (get_feature_names self model_type) ->
     is_Some (get_feature_names self' model_type)) /\
    (model_type <> "churn"%string -> model_type <> "ltv"%string ->
     get_model self' model_type = get_model self model_type /\
     get_scaler self' model_type = get_scaler self model_type /\
     get_feature_names self' model_type = get_feature_names self model_type).
Proof.
  intros self'.
  assert (H : extends self self').
  { subst self'. unfold load_all_models.
    assert (Hb : extends self (load_body fs self).2).
    { unfold load_body.
      repeat (apply seq_extends; [| intros ?]);
        apply assign_extends; intros a;
        first [apply set_model_extends | apply set_scaler_extends
               | apply set_feature_names_extends]; auto. }
    destruct (load_body fs self) as [[e | u] s']; exact Hb. }
  destruct H as (D & V & M & S & F).
  split; [exact D |]. split; [exact V |].
  intros k. unfold get_model, get_scaler, get_feature_names.
  destruct (M k) as [M1 M2]. destruct (S k) as [S1 S2]. destruct (F k) as [F1 F2].
  repeat split; auto.
Qed.

(** Witness of [load_all_models_only_adds]: a loaded service that reloads
    after the LTV estimator file was deleted still has its LTV estimator. *)
Lemma load_all_models_only_adds_witness :
  (load_all_models Demo.churn_files_only Demo.loader).1 = false /\
  is_Some (get_model (load_all_models Demo.churn_files_only Demo.loader).2 "ltv").
Proof.
  split; [vm_compute; reflexivity |].
  apply (proj2 (proj2 (load_all_models_only_adds Demo.churn_files_only Demo.loader)) "ltv").
  eexists. vm_compute. reflexivity.
Defined.

Lemma _load_model_extends (fs : FileSystem) (self self' : t) (name : string) :
  extends self self' -> _load_model fs self' name = _load_model fs self name.
Proof.
  intros (D & V & _). unfold _load_model, model_path. rewrite D, V. reflexivity.
Qed.

Ltac lookup_inserts :=
  repeat first [rewrite lookup_insert_eq | rewrite lookup_insert_ne by congruence];
  reflexivity.

Lemma insert_twice (m : gmap string artifact) (k1 k2 : string) (a1 a2 : artifact) :
  <[k2 := a2]> (<[k1 := a1]> (<[k2 := a2]> (<[k1 := a1]> m)))
  = <[k2 := a2]> (<[k1 := a1]> m).
Proof.
  apply map_eq. intros k.
  destruct (decide (k2 = k)) as [-> | H2]; [lookup_inserts |].
  destruct (decide (k1 = k)) as [-> | H1]; lookup_inserts.
Qed.

(** One statement of the second run: it reads the same file as in the
    first run, because the directory and version did not change. *)
Ltac reload_step fs self name :=
  repeat match goal with
  | |- context [_load_model fs ?s name] =>
      lazymatch s with
      | self => fail
      | _ => change (_load_model fs s name) with (_load_model fs self name)
      end
  end;
  first [ match goal with
          | E : _load_model fs self name = _ |- _ => rewrite !E
          end
        | destruct (_load_model fs self name) eqn:? ];
  cbn [fst snd].

Lemma same_loader_ext (b : bool) (s1 s2 : t) :
  models_dir s1 = models_dir s2 ->
  model_version s1 = model_version s2 ->
  models s1 = models s2 ->
  scalers s1 = scalers s2 ->
  feature_names s1 = feature_names s2 ->
  (b, s1) = (b, s2).
Proof. destruct s1, s2. simpl. intros -> -> -> -> ->. reflexivity. Qed.

(** The two loaders have the same directory and version; their maps differ
    by inserts that were repeated.  Each field is compared on its own, so
    that the nested setters are never expanded as a whole. *)
Ltac same_loader :=
  apply same_loader_ext;
  cbn [models_dir model_version models scalers feature_names
       set_model set_scaler set_feature_names];
  lazymatch goal with
  | |- <[?k2 := _]> (<[?k1 := _]> (<[?k2 := _]> (<[?k1 := _]> _))) = _ =>
      apply insert_twice
  | |- <[?k := _]> (<[?k := _]> _) = _ => apply insert_insert_eq
  | |- _ => reflexivity
  end.

(** X10: Loading is idempotent: running [load_all_models] again on the loader
    it left behind, with the files unchanged, returns the same flag and
    leaves the loader exactly as it was. *)
Theorem load_all_models_idempotent (fs : FileSystem) (self : t) :
  load_all_models fs (load_all_models fs self).2 = load_all_models fs self.
Proof.
  unfold load_all_models, load_body, seq, assign.
  reload_step fs self "churn_model".
  { reload_step fs self "churn_model". reflexivity. }
  reload_step fs self "churn_scaler".
  { reload_step fs self "churn_model". reload_step fs self "churn_scaler".
    same_loader. }
  reload_step fs self "churn_features".
  { reload_step fs self "churn_model". reload_step fs self "churn_scaler".
    reload_step fs self "churn_features".
    same_loader. }
  reload_step fs self "ltv_model".
  { reload_step fs self "churn_model". reload_step fs self "churn_scaler".
    reload_step fs self "churn_features". reload_step fs self "ltv_model".
    same_loader. }
  reload_step fs self "ltv_scaler".
  { reload_step fs self "churn_model". reload_step fs self "churn_scaler".
    reload_step fs self "churn_features". reload_step fs self "ltv_model".
    reload_step fs self "ltv_scaler".
    same_loader. }
  reload_step fs self "ltv_features".
  { reload_step fs self "churn_model". reload_step fs self "churn_scaler".
    reload_step fs self "churn_features". reload_step fs self "ltv_model".
    reload_step fs self "ltv_scaler". reload_step fs self "ltv_features".
    same_loader. }
  reload_step fs self "churn_model". reload_step fs self "churn_scaler".
  reload_step fs self "churn_features". reload_step fs self "ltv_model".
  reload_step fs self "ltv_scaler". reload_step fs self "ltv_features".
  same_loader.
Qed.

End ModelLoaderProps.

(* ===================================================================== *)
(** ** Further properties of the prediction engine *)
(* ===================================================================== *)

Module PredictionEngineProps.

Import PredictionEngine Spec Vocab PyFacts RoundFacts PredictionEngineSpec.

(** *** Which fields a prediction looks at *)

Lemma _prepare_features_agree (self : ModelLoader.t) (model_type : string)
      (d1 d2 : gmap string pyval) :
  (forall names,
      ModelLoader.get_feature_names self model_type = Some (AFeatureNames names) ->
      forall n, In n names -> dict_get_0 d1 n = dict_get_0 d2 n) ->
  _prepare_features self d1 model_type = _prepare_features self d2 model_type.
Proof.
  intros H. unfold _prepare_features.
  destruct (ModelLoader.get_feature_names self model_type) as [[m | sc | names] |];
    try reflexivity.
  simpl. rewrite !features_list_of_map. do 2 f_equal.
  apply map_ext_in. apply (H names eq_refl).
Qed.

Lemma predict_churn_prepared (float_of_str : string -> Exc Q) (self : ModelLoader.t)
      (d1 d2 : gmap string pyval) :
  _prepare_features self d1 "churn" = _prepare_features self d2 "churn" ->
  predict_churn float_of_str self d1 = predict_churn float_of_str self d2.
Proof. intros H. unfold predict_churn. rewrite H. reflexivity. Qed.

Lemma predict_ltv_prepared (float_of_str : string -> Exc Q) (self : ModelLoader.t)
      (d1 d2 : gmap string pyval) :
  _prepare_features self d1 "ltv" = _prepare_features self d2 "ltv" ->
  predict_ltv float_of_str self d1 = predict_ltv float_of_str self d2.
Proof. intros H. unfold predict_ltv. rewrite H. reflexivity. Qed.

(** X11: Each model sees its own schema only: two requests that hold the same
    values under the churn feature names get the same churn prediction,
    whatever else they hold ([user_id], fields of the other model, unknown
    fields), and likewise for the LTV prediction and the LTV feature
    names. *)
Theorem prediction_ignores_other_fields (float_of_str : string -> Exc Q)
        (self : ModelLoader.t) (d1 d2 : gmap string pyval)
        (churn_names ltv_names : list string) :
  ModelLoader.get_feature_names self "churn" = Some (AFeatureNames churn_names) ->
  ModelLoader.get_feature_names self "ltv" = Some (AFeatureNames ltv_names) ->
  (agree_on churn_names d1 d2 ->
   forall clk, predict_churn float_of_str self d1 clk = predict_churn float_of_str self d2 clk) /\
  (agree_on ltv_names d1 d2 ->
   forall clk, predict_ltv float_of_str self d1 clk = predict_ltv float_of_str self d2 clk).
Proof.
  intros Hc Hl. split; intros Hagree clk.
  - rewrite (predict_churn_prepared float_of_str self d1 d2); [reflexivity |].
    apply _prepare_features_agree. intros names Hn n Hin.
    rewrite Hc in Hn. injection Hn as <-.
    unfold dict_get_0. rewrite (Hagree n Hin). reflexivity.
  - rewrite (predict_ltv_prepared float_of_str self d1 d2); [reflexivity |].
    apply _prepare_features_agree. intros names Hn n Hin.
    rewrite Hl in Hn. injection Hn as <-.
    unfold dict_get_0. rewrite (Hagree n Hin). reflexivity.
Qed.

(** Witness of [prediction_ignores_other_fields]: two users with different
    ids and different LTV inputs get the same churn prediction. *)
Lemma prediction_ignores_other_fields_witness :
  predict_churn Demo.strict_float Demo.loader (Demo.user 1 (7 # 10) 500) Demo.clock
  = predict_churn Demo.strict_float Demo.loader (Demo.user 2 (7 # 10) 0) Demo.clock.
Proof.
  refine (proj1 (prediction_ignores_other_fields Demo.strict_float Demo.loader
                   (Demo.user 1 (7 # 10) 500) (Demo.user 2 (7 # 10) 0)
                   Demo.churn_names Demo.ltv_names _ _) _ Demo.clock).
  - vm_compute. reflexivity.
  - vm_compute. reflexivity.
  - intros n Hn. simpl in Hn. destruct Hn as [<- | [<- | []]]; vm_compute; reflexivity.
Defined.

(** X12: A missing field is a zero: adding a field with the value 0 to a
    request that does not have it changes neither prediction, for any
    loader. *)
Theorem missing_field_is_zero (float_of_str : string -> Exc Q) (self : ModelLoader.t)
        (features_dict : gmap string pyval) (k : string) :
  features_dict !! k = None ->
  forall clk,
    predict_churn float_of_str self (<[k := PyNum 0]> features_dict) clk
    = predict_churn float_of_str self features_dict clk /\
    predict_ltv float_of_str self (<[k := PyNum 0]> features_dict) clk
    = predict_ltv float_of_str self features_dict clk.
Proof.
  intros Hk clk.
  assert (Hget : forall n, dict_get_0 (<[k := PyNum 0]> features_dict) n
                           = dict_get_0 features_dict n).
  { intros n. unfold dict_get_0. destruct (decide (k = n)) as [<- | Hne].
    - rewrite lookup_insert_eq, Hk. reflexivity.
    - rewrite lookup_insert_ne by exact Hne. reflexivity. }
  split.
  - rewrite (predict_churn_prepared float_of_str self _ features_dict); [reflexivity |].
    apply _prepare_features_agree. intros; apply Hget.
  - rewrite (predict_ltv_prepared float_of_str self _ features_dict); [reflexivity |].
    apply _prepare_features_agree. intros; apply Hget.
Qed.

(** Witness of [missing_field_is_zero]: a request without
    [days_since_last_run]. *)
Lemma missing_field_is_zero_witness :
  predict_churn Demo.strict_float Demo.loader
    (<["days_since_last_run" := PyNum 0]> (<["score" := PyNum (1 # 2)]> ∅)) Demo.clock
  = predict_churn Demo.strict_float Demo.loader (<["score" := PyNum (1 # 2)]> ∅) Demo.clock.
Proof.
  refine (proj1 (missing_field_is_zero Demo.strict_float Demo.loader
                   (<["score" := PyNum (1 # 2)]> ∅) "days_since_last_run" _ Demo.clock)).
  vm_compute. reflexivity.
Defined.

(** *** Batches *)

(** X13: A batch can be cut anywhere: running [predict_batch] on a list is
    running it on a first part, then on the rest from the clock the first
    run left, and joining the two result lists. *)
Theorem predict_batch_app (float_of_str : string -> Exc Q) (self : ModelLoader.t)
        (us vs : list (gmap string pyval)) (clk : Clock) :
  predict_batch float_of_str self (us ++ vs) clk
  = ((predict_batch float_of_str self us clk).1
       ++ (predict_batch float_of_str self vs (predict_batch float_of_str self us clk).2).1,
     (predict_batch float_of_str self vs (predict_batch float_of_str self us clk).2).2)%list.
Proof.
  unfold predict_batch. revert clk.
  induction us as [| u us IH]; intros clk.
  - cbn [app batch_loop fst snd].
    destruct (batch_loop float_of_str self vs [] clk). reflexivity.
  - cbn [app batch_loop].
    destruct (batch_item float_of_str self u clk) as [entry clk1].
    rewrite (batch_loop_acc _ _ (us ++ vs)%list), (batch_loop_acc _ _ us).
    rewrite IH. cbn [fst snd]. rewrite app_assoc. reflexivity.
Qed.

(** X14: An engine whose loader holds no churn feature names (a loader that
    was never filled, say) fails every churn prediction with the same
    [TypeError] text, and [predict_batch] turns every record into an error
    marker with that text and the record's [user_id], without reading the
    clock. *)
Theorem unloaded_engine_fails (float_of_str : string -> Exc Q) (self : ModelLoader.t)
        (users_features : list (gmap string pyval)) (clk : Clock) :
  ModelLoader.get_feature_names self "churn" = None ->
  (forall features_dict,
      predict_churn float_of_str self features_dict clk = (inl not_loaded_message, clk)) /\
  predict_batch float_of_str self users_features clk
  = (map (fun u => BatchError (get_user_id u) not_loaded_message) users_features, clk).
Proof.
  intros Hnone.
  assert (Hchurn : forall d c, predict_churn float_of_str self d c = (inl not_loaded_message, c)).
  { intros d c. unfold predict_churn, _prepare_features. rewrite Hnone. reflexivity. }
  split; [intros d; apply Hchurn |].
  unfold predict_batch. induction users_features as [| u rest IH]; [reflexivity |].
  cbn [batch_loop map]. unfold batch_item at 1. unfold bind_m at 1. rewrite Hchurn.
  rewrite batch_loop_acc, IH. reflexivity.
Qed.

(** Witness of [unloaded_engine_fails]: the demo batch on a fresh
    loader. *)
Lemma unloaded_engine_fails_witness :
  predict_batch Demo.strict_float Demo.fresh Demo.batch Demo.clock
  = ([BatchError (PyNum 1) not_loaded_message;
      BatchError (PyNum 2) not_loaded_message;
      BatchError (PyNum 3) not_loaded_message], Demo.clock).
Proof.
  apply (proj2 (unloaded_engine_fails Demo.strict_float Demo.fresh Demo.batch Demo.clock
                                      (lookup_empty _))).
Defined.

(** *** The feature-importance list *)

Lemma strongly_sorted_app_inv {A : Type} (R : A -> A -> Prop) (l1 l2 : list A) :
  StronglySorted R (l1 ++ l2) ->
  StronglySorted R l1 /\ Forall (fun a => Forall (R a) l2) l1.
Proof.
  induction l1 as [| x l1 IH]; simpl; intros H.
  - split; constructor.
  - apply StronglySorted_inv in H as [Hs Hx].
    destruct (IH Hs) as [H1 H2]. apply Forall_app in Hx as [Hx1 Hx2].
    split; constructor; assumption.
Qed.

Lemma insert_desc_perm (x : FeatureImportance) (l : list FeatureImportance) :
  Permutation (x :: l) (insert_desc x l).
Proof.
  induction l as [| y l IH]; simpl; [reflexivity |].
  destruct (Qltb (importance_score x) (importance_score y)); [| reflexivity].
  rewrite perm_swap. constructor. exact IH.
Qed.

Lemma sort_desc_perm (l : list FeatureImportance) : Permutation l (sort_desc l).
Proof.
  induction l as [| x l IH]; simpl; [reflexivity |].
  rewrite <- insert_desc_perm. constructor. exact IH.
Qed.

Lemma importance_entries_ranks (float_of_str : string -> Exc Q) (X : DataFrame)
      (pairs : list (string * Q)) :
  forall (i : nat) (l : list FeatureImportance),
    importance_entries float_of_str X i pairs = inr l ->
    map rank l = seq (i + 1) (length pairs).
Proof.
  induction pairs as [| [name importance] rest IH]; intros i l H; simpl in H.
  - injection H as <-. reflexivity.
  - apply bind_inr in H as (c & _ & H). apply bind_inr in H as (v & _ & H).
    apply bind_inr in H as (t & Ht & H). injection H as <-.
    cbn [map rank length seq]. f_equal. rewrite (IH (S i) t Ht). reflexivity.
Qed.

Lemma _calculate_feature_importance_sorted (float_of_str : string -> Exc Q)
      (self : ModelLoader.t) (model : option artifact) (X : DataFrame)
      (model_type : string) (top_n : nat) (l : list FeatureImportance)
      (importances : list Q) :
  getattr_feature_importances model = Some importances ->
  _calculate_feature_importance float_of_str self model X model_type top_n = inr l ->
  exists names all,
    ModelLoader.get_feature_names self model_type = Some (AFeatureNames names) /\
    importance_entries float_of_str X 0 (zip names importances) = inr all /\
    l = take top_n (sort_desc all).
Proof.
  unfold _calculate_feature_importance. intros -> H.
  apply bind_inr in H as (names & Hnames & H).
  apply bind_inr in H as (all & Hall & H). injection H as <-.
  unfold iterate in Hnames.
  destruct (ModelLoader.get_feature_names self model_type) as [[m | sc | names'] |];
    try discriminate.
  injection Hnames as ->. eauto.
Qed.

(** X16: The list really is the top of the ranking: the returned entries
    together with the dropped ones are exactly the entries of all features,
    no kept entry has a lower score than a dropped one, the list has
    [top_n] entries when there are that many features, and no feature
    occurs twice in it. *)
Theorem feature_importance_keeps_the_top (float_of_str : string -> Exc Q)
        (self : ModelLoader.t) (model : option artifact) (X : DataFrame)
        (model_type : string) (top_n : nat) (l : list FeatureImportance)
        (importances : list Q) :
  getattr_feature_importances model = Some importances ->
  _calculate_feature_importance float_of_str self model X model_type top_n = inr l ->
  exists names all dropped,
    ModelLoader.get_feature_names self model_type = Some (AFeatureNames names) /\
    importance_entries float_of_str X 0 (zip names importances) = inr all /\
    Permutation all (l ++ dropped) /\
    length l = Nat.min top_n (length all) /\
    Forall (fun kept =>
              Forall (fun d => (importance_score d <= importance_score kept)%Q) dropped) l /\
    NoDup (map rank l).
Proof.
  intros Himp H.
  destruct (_calculate_feature_importance_sorted _ _ _ _ _ _ _ _ Himp H)
    as (names & all & Hnames & Hall & ->).
  exists names, all, (drop top_n (sort_desc all)).
  split; [exact Hnames |]. split; [exact Hall |].
  split; [rewrite take_drop; apply sort_desc_perm |].
  split; [rewrite length_take, sort_desc_length; reflexivity |].
  split.
  - pose proof (sort_desc_descending all) as Hs. unfold descending in Hs.
    rewrite <- (take_drop top_n (sort_desc all)) in Hs.
    apply strongly_sorted_app_inv in Hs. tauto.
  - assert (Hnd : NoDup (map rank (sort_desc all))).
    { rewrite <- (Permutation_map rank (sort_desc_perm all)).
      rewrite (importance_entries_ranks _ _ _ _ _ Hall). apply NoDup_seq. }
    rewrite <- (take_drop top_n (sort_desc all)), map_app in Hnd.
    apply NoDup_app in Hnd. tauto.
Qed.

(** Witness of [feature_importance_keeps_the_top]: the two-feature demo
    model asked for its single most important feature. *)
Lemma feature_importance_keeps_the_top_witness :
  exists l dropped,
    _calculate_feature_importance Demo.strict_float Demo.loader
      (ModelLoader.get_model Demo.loader "churn") Demo.frame_a "churn" 1 = inr l /\
    length l = 1%nat /\
    Forall (fun kept =>
              Forall (fun d => (importance_score d <= importance_score kept)%Q) dropped) l.
Proof.
  pose (l := [mkImportance "days_since_last_run" 5 (9 # 10) 2]).
  assert (H : _calculate_feature_importance Demo.strict_float Demo.loader
                (ModelLoader.get_model Demo.loader "churn") Demo.frame_a "churn" 1 = inr l)
    by (vm_compute; reflexivity).
  destruct (feature_importance_keeps_the_top
              Demo.strict_float Demo.loader (ModelLoader.get_model Demo.loader "churn")
              Demo.frame_a "churn" 1 l [1 # 10; 9 # 10]%Q)
    as (names & all & dropped & _ & Hall & _ & Hlen & Htop & _).
  - vm_compute. reflexivity.
  - exact H.
  - exists l, dropped. split; [exact H |]. split; [reflexivity | exact Htop].
Defined.

Lemma insert_desc_before (x : FeatureImportance) (l : list FeatureImportance) :
  StronglySorted before l ->
  Forall (fun y => (rank x < rank y)%nat) l ->
  StronglySorted before (insert_desc x l).
Proof.
  induction 1 as [| y l Hl IH Hy]; simpl; intros Hr.
  - repeat constructor.
  - apply Forall_cons in Hr as [Hxy Hr].
    destruct (Qltb (importance_score x) (importance_score y)) eqn:E; qprop.
    + constructor; [apply IH, Hr |].
      apply insert_desc_Forall; [left; exact E | exact Hy].
    + constructor; [constructor; assumption |].
      assert (Hbefore : forall z, (importance_score z <= importance_score y)%Q ->
                                  (rank x < rank z)%nat -> before x z).
      { intros z Hz Hrz. unfold before.
        destruct (Qlt_le_dec (importance_score z) (importance_score x)) as [Hlt | Hge];
          [left; exact Hlt |].
        right. split; [| exact Hrz]. apply Qle_antisym; [| exact Hge].
        eapply Qle_trans; eassumption. }
      constructor; [apply Hbefore; [apply Qle_refl | exact Hxy] |].
      apply Forall_forall. intros z Hz.
      rewrite Forall_forall in Hy, Hr.
      apply Hbefore; [| apply Hr, Hz].
      destruct (Hy z Hz) as [Hlt | [Heq _]];
        [apply Qlt_le_weak, Hlt | rewrite Heq; apply Qle_refl].
Qed.

Lemma sort_desc_before (l : list FeatureImportance) :
  StronglySorted (fun a b => (rank a < rank b)%nat) l ->
  StronglySorted before (sort_desc l).
Proof.
  induction 1 as [| x l Hl IH Hx]; simpl; [constructor |].
  apply insert_desc_before; [exact IH |].
  apply sort_desc_Forall, Hx.
Qed.

Lemma seq_increasing (len start : nat) (l : list FeatureImportance) :
  map rank l = seq start len ->
  StronglySorted (fun a b => (rank a < rank b)%nat) l.
Proof.
  revert start l. induction len as [| len IH]; intros start [| x l] H;
    simpl in H; try discriminate; [constructor |].
  injection H as Hx Hl. constructor; [apply (IH (S start)), Hl |].
  apply Forall_forall. intros y Hy.
  assert (Hin : In (rank y) (seq (S start) len))
    by (rewrite <- Hl; apply in_map, list_elem_of_In, Hy).
  apply in_seq in Hin. lia.
Qed.

(** X17: Ties keep the feature order: the sort is stable, so of two returned
    entries the earlier one has the strictly higher score, or the same
    score and the smaller rank, i.e. the earlier place in the feature-name
    list. *)
Theorem feature_importance_ties_in_feature_order (float_of_str : string -> Exc Q)
        (self : ModelLoader.t) (model : option artifact) (X : DataFrame)
        (model_type : string) (top_n : nat) (l : list FeatureImportance) :
  _calculate_feature_importance float_of_str self model X model_type top_n = inr l ->
  StronglySorted before l.
Proof.
  intros H.
  destruct (getattr_feature_importances model) as [importances |] eqn:Himp.
  - destruct (_calculate_feature_importance_sorted _ _ _ _ _ _ _ _ Himp H)
      as (names & all & _ & Hall & ->).
    assert (Hs : StronglySorted before (sort_desc all)).
    { apply sort_desc_before.
      apply (seq_increasing _ _ _ (importance_entries_ranks _ _ _ _ _ Hall)). }
    rewrite <- (take_drop top_n (sort_desc all)) in Hs.
    apply strongly_sorted_app_inv in Hs. tauto.
  - unfold _calculate_feature_importance in H. rewrite Himp in H.
    injection H as <-. constructor.
Qed.

(** Witness of [feature_importance_ties_in_feature_order] on the demo
    model. *)
Lemma feature_importance_ties_in_feature_order_witness :
  StronglySorted before
    [mkImportance "days_since_last_run" 5 (9 # 10) 2;
     mkImportance "score" (1 # 2) (1 # 10) 1].
Proof.
  apply (feature_importance_ties_in_feature_order
           Demo.strict_float Demo.loader
           (ModelLoader.get_model Demo.loader "churn") Demo.frame_a "churn" 10).
  vm_compute. reflexivity.
Defined.

(** Witness of [_calculate_feature_importance_returns]: the demo model,
    with room for ten entries and two features. *)
Lemma _calculate_feature_importance_returns_witness :
  descending [mkImportance "days_since_last_run" 5 (9 # 10) 2;
              mkImportance "score" (1 # 2) (1 # 10) 1].
Proof.
  pose proof (_calculate_feature_importance_returns
                Demo.strict_float Demo.loader
                (ModelLoader.get_model Demo.loader "churn") Demo.frame_a "churn" 10
                [mkImportance "days_since_last_run" 5 (9 # 10) 2;
                 mkImportance "score" (1 # 2) (1 # 10) 1]) as H.
  assert (Hrun : _calculate_feature_importance Demo.strict_float Demo.loader
                   (ModelLoader.get_model Demo.loader "churn") Demo.frame_a "churn" 10
                 = inr [mkImportance "days_since_last_run" 5 (9 # 10) 2;
                        mkImportance "score" (1 # 2) (1 # 10) 1])
    by (vm_compute; reflexivity).
  specialize (H Hrun).
  change (getattr_feature_importances (ModelLoader.get_model Demo.loader "churn"))
    with (Some [1 # 10; 9 # 10]%Q) in H.
  destruct H as (names & _ & Hdesc & _). exact Hdesc.
Defined.

(** *** Ranges of the result fields *)

Local Open Scope Q_scope.

(** X18: With a classifier whose class-1 probability lies in [0, 1], the
    reported probability stays in [0, 1] and the confidence score in
    [0.5, 1]; the confidence is at least 0.7 for a HIGH risk, at least 0.6
    for a LOW risk and at most 0.7 for a MEDIUM risk. *)
Theorem churn_result_in_range (float_of_str : string -> Exc Q) (self : ModelLoader.t)
        (features_dict : gmap string pyval) (clk clk' : Clock) (r : Churn.Result) :
  (forall X_scaled p,
      call_predict_proba (ModelLoader.get_model self "churn") X_scaled = inr p ->
      0 <= p /\ p <= 1) ->
  predict_churn float_of_str self features_dict clk = (inr r, clk') ->
  (0 <= Churn.probability r /\ Churn.probability r <= 1) /\
  (1 # 2 <= Churn.confidence_score r /\ Churn.confidence_score r <= 1) /\
  (Churn.risk_level r = "HIGH"%string -> 7 # 10 <= Churn.confidence_score r) /\
  (Churn.risk_level r = "LOW"%string -> 6 # 10 <= Churn.confidence_score r) /\
  (Churn.risk_level r = "MEDIUM"%string -> Churn.confidence_score r <= 7 # 10).
Proof.
  intros Hmodel H.
  apply predict_churn_inr in H as (X & Xs & p & l & fi & _ & _ & Hp & _ & _ & ->).
  destruct (Hmodel Xs p Hp) as [P0 P1].
  cbn [Churn.probability Churn.confidence_score Churn.risk_level].
  destruct (risk_level_of_spec p) as (Hh & Hm & Hl).
  pose proof (py_max_ge_l p (1 - p)) as M1.
  pose proof (py_max_ge_r p (1 - p)) as M2.
  assert (M3 : py_max p (1 - p) <= 1) by (destruct (py_max_cases p (1 - p)) as [-> | ->]; lra).
  set (m := py_max p (1 - p)) in *.
  assert (R : forall (x : Q) (lo hi : Z),
             inject_Z lo <= x * 10000 -> x * 10000 <= inject_Z hi ->
             inject_Z lo <= py_round x 4 * 10000 /\ py_round x 4 * 10000 <= inject_Z hi).
  { intros x lo hi. apply (py_round_range x 4 lo hi). }
  split; [| split; [| split; [| split]]].
  - destruct (R p 0%Z 10000%Z) as [A B];
      [change (inject_Z 0) with 0; lra | change (inject_Z 10000) with 10000; lra |].
    change (inject_Z 0) with 0 in A. change (inject_Z 10000) with 10000 in B. lra.
  - destruct (R m 5000%Z 10000%Z) as [A B];
      [change (inject_Z 5000) with 5000; lra | change (inject_Z 10000) with 10000; lra |].
    change (inject_Z 5000) with 5000 in A. change (inject_Z 10000) with 10000 in B. lra.
  - intros Hr. apply Hh in Hr.
    destruct (R m 7000%Z 10000%Z) as [A B];
      [change (inject_Z 7000) with 7000; lra | change (inject_Z 10000) with 10000; lra |].
    change (inject_Z 7000) with 7000 in A. lra.
  - intros Hr. apply Hl in Hr.
    destruct (R m 6000%Z 10000%Z) as [A B];
      [change (inject_Z 6000) with 6000; lra | change (inject_Z 10000) with 10000; lra |].
    change (inject_Z 6000) with 6000 in A. lra.
  - intros Hr. apply Hm in Hr.
    assert (M4 : m <= 7 # 10)
      by (subst m; destruct (py_max_cases p (1 - p)) as [-> | ->]; lra).
    destruct (R m 5000%Z 7000%Z) as [A B];
      [change (inject_Z 5000) with 5000; lra | change (inject_Z 7000) with 7000; lra |].
    change (inject_Z 7000) with 7000 in B. lra.
Qed.

(** Witness of [churn_result_in_range]: the clipping classifier on a
    score of 3. *)
Lemma churn_result_in_range_witness :
  exists r clk',
    predict_churn Demo.strict_float Fixtures.clipped_loader (Demo.user 1 3 0) Demo.clock
    = (inr r, clk') /\
    1 # 2 <= Churn.confidence_score r /\ Churn.confidence_score r <= 1.
Proof.
  pose (r := Churn.mkResult 1 1 "HIGH" 1
               [mkImportance "days_since_last_run" 5 (9 # 10) 2;
                mkImportance "score" 3 (1 # 10) 1]
               "v1.0.0" "2024-01-01T00:00:00.000001").
  pose (clk' := fun n : nat => Demo.clock (S n)).
  assert (H : predict_churn Demo.strict_float Fixtures.clipped_loader
                            (Demo.user 1 3 0) Demo.clock
              = (inr r, clk')) by (vm_compute; reflexivity).
  exists r, clk'. split; [exact H |].
  refine (proj1 (proj2 (churn_result_in_range _ _ _ _ _ _ _ H))).
  intros Xs p Hp.
  change (ModelLoader.get_model Fixtures.clipped_loader "churn")
    with (Some (AEstimator Fixtures.clipped_estimator)) in Hp.
  cbn [call_predict_proba predict_proba Fixtures.clipped_estimator] in Hp.
  destruct (Demo.first_feature Xs) as [e | x]; [discriminate |].
  injection Hp as <-. apply clip_range. lra.
Defined.

(** X19: The reported LTV never contradicts its category from below: it is
    never negative, at least 500 for HIGH, between 200 and 500 for MEDIUM,
    at most 200 for LOW and 0 for ZERO.  (Rounding to two decimals can
    lift a MEDIUM value to the reported 500, and push a LOW value down to
    the reported 0.) *)
Theorem ltv_result_in_range (float_of_str : string -> Exc Q) (self : ModelLoader.t)
        (features_dict : gmap string pyval) (clk clk' : Clock) (r : Ltv.Result) :
  predict_ltv float_of_str self features_dict clk = (inr r, clk') ->
  0 <= Ltv.ltv_value r /\
  (Ltv.ltv_category r = "HIGH"%string -> 500 <= Ltv.ltv_value r) /\
  (Ltv.ltv_category r = "MEDIUM"%string ->
   200 <= Ltv.ltv_value r /\ Ltv.ltv_value r <= 500) /\
  (Ltv.ltv_category r = "LOW"%string -> Ltv.ltv_value r <= 200) /\
  (Ltv.ltv_category r = "ZERO"%string -> Ltv.ltv_value r == 0).
Proof.
  intros H.
  apply predict_ltv_inr in H as (X & Xs & o & fi & _ & _ & _ & _ & ->).
  cbn [Ltv.ltv_value Ltv.ltv_category].
  pose proof (py_max_ge_r o 0) as Hnn.
  set (v := py_max o 0) in *.
  destruct (ltv_category_of_spec v Hnn) as (Hh & Hm & Hl & Hz).
  assert (R : forall (lo hi : Z),
             inject_Z lo <= v * 100 -> v * 100 <= inject_Z hi ->
             inject_Z lo <= py_round v 2 * 100 /\ py_round v 2 * 100 <= inject_Z hi).
  { intros lo hi. apply (py_round_range v 2 lo hi). }
  assert (Rlo : forall lo : Z, inject_Z lo <= v * 100 -> inject_Z lo <= py_round v 2 * 100).
  { intros lo Hlo. rewrite py_round_scaled, <- Zle_Qle.
    apply round_half_even_ge. exact Hlo. }
  split; [| split; [| split; [| split]]].
  - specialize (Rlo 0%Z). change (inject_Z 0) with 0 in Rlo. lra.
  - intros Hr. apply Hh in Hr.
    specialize (Rlo 50000%Z). change (inject_Z 50000) with 50000 in Rlo. lra.
  - intros Hr. apply Hm in Hr.
    destruct (R 20000%Z 50000%Z) as [A B];
      [change (inject_Z 20000) with 20000; lra | change (inject_Z 50000) with 50000; lra |].
    change (inject_Z 20000) with 20000 in A. change (inject_Z 50000) with 50000 in B. lra.
  - intros Hr. apply Hl in Hr.
    destruct (R 0%Z 20000%Z) as [A B];
      [change (inject_Z 0) with 0; lra | change (inject_Z 20000) with 20000; lra |].
    change (inject_Z 20000) with 20000 in B. lra.
  - intros Hr. apply Hz in Hr.
    destruct (R 0%Z 0%Z) as [A B]; [change (inject_Z 0) with 0; lra .. |].
    change (inject_Z 0) with 0 in A, B. lra.
Qed.

(** Witness of [ltv_result_in_range]: an output of 499.996 is MEDIUM and
    is reported as 500. *)
Lemma ltv_result_in_range_witness :
  exists r clk',
    predict_ltv Demo.strict_float Demo.loader (Demo.user 1 0 (499996 # 1000)) Demo.clock
    = (inr r, clk') /\
    Ltv.ltv_category r = "MEDIUM"%string /\
    200 <= Ltv.ltv_value r /\ Ltv.ltv_value r <= 500.
Proof.
  pose (r := Ltv.mkResult 500 "MEDIUM" [] "v1.0.0" "2024-01-01T00:00:00.000001").
  pose (clk' := fun n : nat => Demo.clock (S n)).
  assert (H : predict_ltv Demo.strict_float Demo.loader
                          (Demo.user 1 0 (499996 # 1000)) Demo.clock
              = (inr r, clk')) by (vm_compute; reflexivity).
  exists r, clk'. split; [exact H |]. split; [reflexivity |].
  apply (proj1 (proj2 (proj2 (ltv_result_in_range _ _ _ _ _ _ H)))). reflexivity.
Defined.

End PredictionEngineProps.

(* ===================================================================== *)
(** ** Properties of start-up and of the single-record endpoints *)
(* ===================================================================== *)

Module AppProps.

Import Spec Vocab PyFacts ModelLoaderSpec.




Lemma not_falsy (d : gmap string pyval) (uid : pyval) :
  d !! "user_id" = Some uid -> App.falsy (Some d) = false.
Proof.
  intros H. unfold App.falsy. apply bool_decide_eq_false.
  intros ->. rewrite lookup_empty in H. discriminate.
Qed.

(** X21: A successful start serves: when all six files load, [initialize]
    returns, [/health] reports [models_loaded], and a request that is a
    JSON object with a [user_id] gets from [/predict/churn] either 200
    with that [user_id] and the engine's churn result for the loaded
    artifacts, or 500 with the text of the exception the engine raised;
    it is never refused. *)
Theorem successful_start_serves (float_of_str : string -> Exc Q)
        (fs : ModelLoader.FileSystem) (MODELS_PATH MODEL_VERSION : string)
        (features : gmap string pyval) (uid : pyval) (clk : PredictionEngine.Clock) :
  Forall (fun n => is_Some (loads fs (ModelLoader.init MODELS_PATH MODEL_VERSION) n))
         artifact_names ->
  features !! "user_id" = Some uid ->
  let loader :=
    (ModelLoader.load_all_models fs (ModelLoader.init MODELS_PATH MODEL_VERSION)).2 in
  let g := (App.initialize fs MODELS_PATH MODEL_VERSION App.unset).2 in
  (App.initialize fs MODELS_PATH MODEL_VERSION App.unset).1 = inr tt /\
  App.health MODEL_VERSION g
  = (App.HealthBody "healthy" "Prediction Service" MODEL_VERSION true, 200%Z) /\
  App.predict_churn float_of_str g (inr (Some features)) clk
  = match PredictionEngine.predict_churn float_of_str loader features clk with
    | (inr result, clk') => ((App.ChurnBody uid result, 200%Z), clk')
    | (inl e, clk') => ((App.FailureBody e, 500%Z), clk')
    end.
Proof.
  intros Hall Huid loader g. subst loader g.
  destruct (load_all_models_fresh fs MODELS_PATH MODEL_VERSION) as (Hok & _).
  apply Hok in Hall. clear Hok.
  unfold App.initialize.
  destruct (ModelLoader.load_all_models fs (ModelLoader.init MODELS_PATH MODEL_VERSION))
    as [ok loader].
  cbn [fst] in Hall. subst ok. cbn [fst snd].
  split; [reflexivity |]. split; [reflexivity |].
  unfold App.predict_churn, App.view. cbn [App.prediction_engine].
  rewrite (not_falsy features uid Huid).
  change (default ∅ (Some features)) with features. rewrite Huid. reflexivity.
Qed.

(** Witness of [successful_start_serves]: the complete demo directory. *)
Lemma successful_start_serves_witness :
  (App.initialize Demo.all_files "models" "v1.0.0" App.unset).1 = inr tt.
Proof.
  refine (proj1 (successful_start_serves Demo.strict_float Demo.all_files
                   "models" "v1.0.0" (Demo.user 1 (1 # 2) 300) (PyNum 1) Demo.clock _ _)).
  - unfold artifact_names. repeat constructor; eexists; vm_compute; reflexivity.
  - vm_compute. reflexivity.
Defined.

(** X22: [/predict/all] is a batch of one: for a started service and a JSON
    object with a [user_id], the view answers 200 with both results
    exactly when [predict_batch] on that single record yields a success
    entry with the same [user_id] and results, and 500 with the error text
    exactly when the batch yields an error marker; both leave the same
    clock. *)
Theorem predict_all_is_a_batch_of_one (float_of_str : string -> Exc Q) (g : App.Globals)
        (engine : ModelLoader.t) (features : gmap string pyval) (uid : pyval)
        (clk : PredictionEngine.Clock) :
  App.prediction_engine g = Some engine ->
  features !! "user_id" = Some uid ->
  exists entry,
    PredictionEngine.predict_batch float_of_str engine [features] clk
    = ([entry], (App.predict_all float_of_str g (inr (Some features)) clk).2) /\
    (App.predict_all float_of_str g (inr (Some features)) clk).1
    = match entry with
      | PredictionEngine.BatchOk user_id churn ltv => (App.AllBody user_id churn ltv, 200%Z)
      | PredictionEngine.BatchError _ e => (App.FailureBody e, 500%Z)
      end /\
    match entry with
    | PredictionEngine.BatchOk user_id _ _ => user_id = uid
    | PredictionEngine.BatchError user_id _ => user_id = uid
    end.
Proof.
  intros Hengine Huid.
  unfold App.predict_all, App.view. rewrite Hengine.
  rewrite (not_falsy features uid Huid).
  change (default ∅ (Some features)) with features. rewrite Huid.
  unfold PredictionEngine.predict_batch. cbn [PredictionEngine.batch_loop].
  unfold PredictionEngine.batch_item, PredictionEngine.get_user_id. rewrite Huid.
  change (default PyNone (Some uid)) with uid.
  destruct (PredictionEngine.bind_m _ _ clk) as [[e | [c l]] clk1]; cbn [fst snd app].
  - eexists. split; [reflexivity |]. split; reflexivity.
  - eexists. split; [reflexivity |]. split; reflexivity.
Qed.

(** Witness of [predict_all_is_a_batch_of_one] on the started demo
    service. *)
Lemma predict_all_is_a_batch_of_one_witness :
  exists entry,
    PredictionEngine.predict_batch Demo.strict_float Demo.loader
      [Demo.user 1 (7 # 10) 500] Demo.clock
    = ([entry], (App.predict_all Demo.strict_float Fixtures.started
                   (inr (Some (Demo.user 1 (7 # 10) 500))) Demo.clock).2).
Proof.
  destruct (predict_all_is_a_batch_of_one Demo.strict_float Fixtures.started Demo.loader
              (Demo.user 1 (7 # 10) 500) (PyNum 1) Demo.clock)
    as (entry & H & _).
  - reflexivity.
  - vm_compute. reflexivity.
  - exists entry. exact H.
Defined.

(** X23: [/predict/batch] answers 200 whatever happens to the records: for a
    started service and a body whose [users] member is a list of records,
    the response is 200, its [count] is the number of records sent, and its
    predictions are the engine's batch result, error markers included.  A
    failing record never turns the request into an error response. *)
Theorem batch_view_counts_every_record (float_of_str : string -> Exc Q) (g : App.Globals)
        (engine : ModelLoader.t) (json : gmap string App.Member)
        (users_features : list (gmap string pyval)) (clk : PredictionEngine.Clock) :
  App.prediction_engine g = Some engine ->
  json !! "users" = Some (App.Records users_features) ->
  App.predict_batch float_of_str g (inr (Some json)) clk
  = ((App.BatchBody (length users_features)
                    (PredictionEngine.predict_batch float_of_str engine users_features clk).1,
      200%Z),
     (PredictionEngine.predict_batch float_of_str engine users_features clk).2).
Proof.
  intros Hengine Husers. unfold App.predict_batch. rewrite Hengine, Husers.
  destruct (PredictionEngineSpec.batch_loop_entries
              float_of_str engine users_features [] clk) as (Hlen & _).
  fold (PredictionEngine.predict_batch float_of_str engine users_features clk) in Hlen.
  destruct (PredictionEngine.predict_batch float_of_str engine users_features clk)
    as [results clk'].
  cbn [fst snd] in *. rewrite Hlen. reflexivity.
Qed.

(** Witness of [batch_view_counts_every_record]: the demo batch, whose
    second record fails. *)
Lemma batch_view_counts_every_record_witness :
  (App.predict_batch Demo.strict_float Fixtures.started
     (inr (Some (<["users" := App.Records Demo.batch]> ∅))) Demo.clock).1.2 = 200%Z.
Proof.
  rewrite (batch_view_counts_every_record Demo.strict_float Fixtures.started Demo.loader
             (<["users" := App.Records Demo.batch]> ∅) Demo.batch Demo.clock).
  - reflexivity.
  - reflexivity.
  - apply lookup_insert_eq.
Defined.

End AppProps.
